(** * A shallow embedding of the caching HTTP proxy (proxyserver.py)

    The development follows the source file top to bottom: the text
    operations the request-line parsing relies on, the cache directory with
    [get_cached_content] and [cache_content], the sockets, [handle_client],
    written in a small state-and-exception monad, and the accept loop of
    [start_proxy_server].

    Scope of the embedding.
    - A Python [str] is written as the string of the bytes of its UTF-8
      encoding. [bytes.decode('utf-8', errors='ignore')] drops the
      ill-formed sequences, [str.split()] knows the white space of Unicode,
      and the tests on [/], [http://] and the line end read the same on
      bytes as on characters.
    - The [print] calls tagged [ERROR] are recorded in the trace by site;
      the ones tagged [DEBUG] are not recorded.
    - A file the proxy creates can be read and written by the proxy.
    - Writes to the client socket and to a connected origin socket succeed. *)

From Stdlib Require Import String Ascii List ZArith Lia Bool.
From Stdlib.Strings Require Import Byte.
From stdpp Require Import gmap strings list fin_maps.
Import ListNotations.

Local Open Scope string_scope.
Local Open Scope list_scope.

(** ** Text operations of the Python standard library *)

Module PyStr.

Definition CR : ascii := ascii_of_nat 13.
Definition LF : ascii := ascii_of_nat 10.
Definition CRLF : string := String CR (String LF EmptyString).

(** Puts [c] in front of the first piece of a split. *)
Definition cons_piece (c : ascii) (pieces : list string) : list string :=
  match pieces with
  | [] => [String c EmptyString]
  | p :: ps => String c p :: ps
  end.

(** [s.split('\r\n')]: always at least one piece. *)
Fixpoint split_crlf (s : string) : list string :=
  match s with
  | EmptyString => [EmptyString]
  | String c rest =>
      match rest with
      | EmptyString => [String c EmptyString]
      | String c' rest' =>
          if (Ascii.eqb c CR && Ascii.eqb c' LF)%bool
          then EmptyString :: split_crlf rest'
          else cons_piece c (split_crlf rest)
      end
  end.

Definition code (c : ascii) : nat := nat_of_ascii c.

(** A continuation byte of UTF-8, 80 to BF. *)
Definition is_cont (c : ascii) : bool :=
  ((128 <=? code c) && (code c <? 192))%nat.

(** The second byte of a sequence of three: a continuation byte, from A0
    after E0 (no overlong form) and below A0 after ED (no surrogate). *)
Definition second_of_three (b1 b2 : ascii) : bool :=
  (is_cont b2 &&
   negb (if code b2 <? 160 then code b1 =? 224 else code b1 =? 237))%nat.

(** The second byte of a sequence of four: a continuation byte, from 90
    after F0 and below 90 after F4 (nothing beyond 10FFFF). *)
Definition second_of_four (b1 b2 : ascii) : bool :=
  (is_cont b2 &&
   negb (if code b2 <? 144 then code b1 =? 240 else code b1 =? 244))%nat.

(** [bytes.decode('utf-8', errors='ignore')], the text being written as
    its UTF-8 bytes: a well-formed sequence is kept; of an ill-formed one
    the bytes before the byte that breaks it are dropped, all of them when
    the input ends inside it, and the reading goes on at that byte. *)
Fixpoint utf8_ignore (s : string) : string :=
  match s with
  | EmptyString => EmptyString
  | String b1 r1 =>
      if (code b1 <? 128)%nat then String b1 (utf8_ignore r1)
      else if (code b1 <? 194)%nat then utf8_ignore r1
      else if (code b1 <? 224)%nat then
        match r1 with
        | EmptyString => EmptyString
        | String b2 r2 =>
            if is_cont b2
            then String b1 (String b2 (utf8_ignore r2))
            else utf8_ignore r1
        end
      else if (code b1 <? 240)%nat then
        match r1 with
        | EmptyString => EmptyString
        | String b2 r2 =>
            if second_of_three b1 b2 then
              match r2 with
              | EmptyString => EmptyString
              | String b3 r3 =>
                  if is_cont b3
                  then String b1 (String b2 (String b3 (utf8_ignore r3)))
                  else utf8_ignore r2
              end
            else utf8_ignore r1
        end
      else if (code b1 <? 245)%nat then
        match r1 with
        | EmptyString => EmptyString
        | String b2 r2 =>
            if second_of_four b1 b2 then
              match r2 with
              | EmptyString => EmptyString
              | String b3 r3 =>
                  if is_cont b3 then
                    match r3 with
                    | EmptyString => EmptyString
                    | String b4 r4 =>
                        if is_cont b4
                        then String b1 (String b2 (String b3 (String b4
                               (utf8_ignore r4))))
                        else utf8_ignore r3
                    end
                  else utf8_ignore r2
              end
            else utf8_ignore r1
        end
      else utf8_ignore r1
  end.

(** White space of [str.split()] below code point 128:
    TAB, LF, VT, FF, CR, FS, GS, RS, US and the space. *)
Definition isspace (c : ascii) : bool :=
  let n := nat_of_ascii c in
  ((9 <=? n) && (n <=? 13) || (28 <=? n) && (n <=? 32))%nat.

(** White space of [str.split()] from code point 128 on, in two bytes:
    U+0085 and U+00A0. *)
Definition isspace2 (c1 c2 : ascii) : bool :=
  ((code c1 =? 194) && ((code c2 =? 133) || (code c2 =? 160)))%nat.

(** The same in three bytes: U+1680, U+2000 to U+200A, U+2028, U+2029,
    U+202F, U+205F and U+3000. *)
Definition isspace3 (c1 c2 c3 : ascii) : bool :=
  ((code c1 =? 225) && (code c2 =? 154) && (code c3 =? 128)
   || (code c1 =? 226) && (code c2 =? 128) &&
      ((128 <=? code c3) && (code c3 <=? 138)
       || (code c3 =? 168) || (code c3 =? 169) || (code c3 =? 175))
   || (code c1 =? 226) && (code c2 =? 129) && (code c3 =? 159)
   || (code c1 =? 227) && (code c2 =? 128) && (code c3 =? 128))%nat.

(** The number of bytes of the white space character [s] starts with,
    0 when it starts with none. *)
Definition space_width (s : string) : nat :=
  match s with
  | EmptyString => 0
  | String c1 r1 =>
      if isspace c1 then 1
      else
        match r1 with
        | EmptyString => 0
        | String c2 r2 =>
            if isspace2 c1 c2 then 2
            else
              match r2 with
              | EmptyString => 0
              | String c3 _ => if isspace3 c1 c2 c3 then 3 else 0
              end
        end
  end.

(** A character in front of the word that is being read. *)
Definition keep (c : ascii) (p : string * list string)
  : string * list string :=
  (String c (fst p), snd p).

(** A white space character in front: the word read so far is complete. *)
Definition sep (p : string * list string) : string * list string :=
  (EmptyString,
   match fst p with EmptyString => snd p | w => w :: snd p end).

(** The run of non-blank characters [s] starts with, and the words
    after it, once [skip] bytes of a white space character are passed. *)
Fixpoint words_from (skip : nat) (s : string) : string * list string :=
  match s with
  | EmptyString => (EmptyString, [])
  | String c rest =>
      match skip with
      | S k => words_from k rest
      | O =>
          match space_width s with
          | O => keep c (words_from 0 rest)
          | S k => sep (words_from k rest)
          end
      end
  end.

Definition words (s : string) : string * list string := words_from 0 s.

(** [s.split()]: the maximal runs of non-blank characters. *)
Definition split (s : string) : list string :=
  let '(w, ws) := words s in
  match w with EmptyString => ws | _ => w :: ws end.

Definition upper_char (c : ascii) : ascii :=
  let n := nat_of_ascii c in
  if ((97 <=? n) && (n <=? 122))%nat then ascii_of_nat (n - 32) else c.

(** [s.upper()] on the letters [a] to [z]. The handler compares the
    result with [GET] and nothing else, and no character but [g], [e], [t]
    and their capitals has an upper case that is a part of [GET]. *)
Fixpoint upper (s : string) : string :=
  match s with
  | EmptyString => EmptyString
  | String c rest => String (upper_char c) (upper rest)
  end.

(** [s.startswith(p)] *)
Definition startswith (s p : string) : bool := String.prefix p s.

(** [s[n:]] *)
Fixpoint slice_from (n : nat) (s : string) : string :=
  match n, s with
  | O, _ => s
  | S n', String _ rest => slice_from n' rest
  | S _, EmptyString => EmptyString
  end.

(** [s.split('/', 1)]: the text before the first slash, and the text
    after it when there is a slash. *)
Fixpoint split_slash_once (s : string) : string * option string :=
  match s with
  | EmptyString => (EmptyString, None)
  | String c rest =>
      if Ascii.eqb c "/"
      then (EmptyString, Some rest)
      else let '(h, t) := split_slash_once rest in (String c h, t)
  end.

(** [s.replace('/', '_')] *)
Fixpoint replace_slash (s : string) : string :=
  match s with
  | EmptyString => EmptyString
  | String c rest =>
      String (if Ascii.eqb c "/" then "_"%char else c) (replace_slash rest)
  end.

End PyStr.

(** ** Observable behaviour of one session *)

(** Exceptions that reach the [except] clauses of [handle_client]. *)
Inductive io_site :=
| open_rb | open_wb | file_write | sock_connect | sock_recv | client_recv.

Inductive exn :=
| socket_timeout
| OSError (site : io_site).

(** The [print] calls tagged [ERROR], one constructor per call. *)
Inductive report :=
| EmptyRequestData
| NoRequestLine
| InvalidRequestLine (request_line : list string)
| OnlyGetSupported (token : string)
| HttpsNotSupported
| RelativeURL
| EmptyResponse (hostname : string)
| TimedOut
| ExceptionRaised (e : exn).

Inductive event :=
| Connect (hostname : string) (port : Z)
| SendOrigin (data : list byte)
| RecvOrigin (bufsize : nat)
| CloseOrigin
| SendClient (data : list byte)
| CloseClient
| PrintError (r : report).

(** ** The cache directory *)

Record file := File {
  content : list byte;
  readable : bool;
  writable : bool
}.

Inductive node :=
| Regular (f : file)
| Directory.

(** [entries] maps a name to what [os.path.join(CACHE_DIR, name)] denotes;
    [can_create] tells the names under which a new file can be created in
    the directory (it may refuse them all, or the ones the system does not
    take, too long or with a zero byte); [write_limit] is the number of
    bytes a write can put down before it fails, when there is a bound. *)
Record filesystem := Filesystem {
  entries : gmap string node;
  can_create : string -> bool;
  write_limit : option nat
}.

(** ** The origin servers *)

(** What one [recv] on a connected socket meets: bytes that have arrived,
    no byte within the time-out, or a failed connection. The end of the
    list is the origin closing the connection. *)
Inductive recv_event :=
| Chunk (data : list byte)
| Stall
| ConnReset.

Inductive connect_result :=
| Unreachable
| ConnectTimeout
| Accepted (reply : list byte -> list recv_event).

Definition network := string -> Z -> connect_result.

(** Every byte the origin sends before it closes the connection. *)
Fixpoint full_response (stream : list recv_event) : list byte :=
  match stream with
  | Chunk data :: rest => data ++ full_response rest
  | _ => []
  end.

(** ** State and exceptions *)

Record state := State {
  fs : filesystem;
  trace : list event
}.

Inductive result (A : Type) :=
| Returned (a : A)
| Raised (e : exn).
Arguments Returned {A} a.
Arguments Raised {A} e.

Definition M (A : Type) : Type := state -> result A * state.

Definition ret {A} (a : A) : M A := fun s => (Returned a, s).

Definition bind {A B} (m : M A) (k : A -> M B) : M B :=
  fun s =>
    match m s with
    | (Returned a, s') => k a s'
    | (Raised e, s') => (Raised e, s')
    end.

Definition raise {A} (e : exn) : M A := fun s => (Raised e, s).

Definition lift {A} (r : result A) : M A := fun s => (r, s).

Definition emit (ev : event) : M unit :=
  fun s => (Returned tt, State (fs s) (trace s ++ [ev])).

Definition print (r : report) : M unit := emit (PrintError r).

(** [try: body except socket.timeout: ... except Exception as e: ...] *)
Definition try_except {A} (body : M A) (handler : exn -> M A) : M A :=
  fun s =>
    match body s with
    | (Returned a, s') => (Returned a, s')
    | (Raised e, s') => handler e s'
    end.

(** [try: body finally: cleanup], also the exit of a [with] block. *)
Definition finally {A} (body : M A) (cleanup : M unit) : M A :=
  fun s =>
    match body s with
    | (r, s') =>
        match cleanup s' with
        | (Returned _, s'') => (r, s'')
        | (Raised e, s'') => (Raised e, s'')
        end
    end.

Declare Scope proxy_scope.
Delimit Scope proxy_scope with proxy.
Notation "'let*' x ':=' m 'in' k" := (bind m (fun x => k))
  (at level 10, x name, m at level 100, k at level 200) : proxy_scope.
Notation "m ;; k" := (bind m (fun _ => k))
  (at level 100, k at level 200, right associativity) : proxy_scope.
Local Open Scope proxy_scope.

(** ** Configuration *)

Definition BUFSIZE : nat := 4096.
Definition HTTP_PORT : Z := 80.

(** ** get_cached_content *)

Definition get_cached_content (cache_key : string) : M (option (list byte)) :=
  fun s =>
    match entries (fs s) !! cache_key with
    | Some (Regular f) =>
        if readable f then (Returned (Some (content f)), s)
        else (Raised (OSError open_rb), s)
    | Some Directory => (Returned None, s)
    | None => (Returned None, s)
    end.

(** ** cache_content *)

Definition write_file (cache_key : string) (f : file) (s : state) : state :=
  State (Filesystem (<[cache_key := Regular f]> (entries (fs s)))
                    (can_create (fs s)) (write_limit (fs s)))
        (trace s).

(** [open(cache_path, "wb")]: the permissions of the file that is opened,
    an existing file that can be written or a new one; [None] when the
    call raises. *)
Definition open_wb_mode (d : filesystem) (cache_key : string)
  : option (bool * bool) :=
  match entries d !! cache_key with
  | Some (Regular f) =>
      if writable f then Some (readable f, writable f) else None
  | Some Directory => None
  | None => if can_create d cache_key then Some (true, true) else None
  end.

(** What [f.write(content)] and the closing of the file put down: all of
    [data], or its first bytes up to the bound when [data] is longer. *)
Definition put_down (d : filesystem) (data : list byte) : list byte :=
  match write_limit d with
  | Some n => take n data
  | None => data
  end.

(** The file is opened, which empties it, then written: a failure of the
    opening leaves the directory as it was, a failure of the writing
    leaves the file with what was put down. *)
Definition cache_content (cache_key : string) (data : list byte) : M unit :=
  fun s =>
    match open_wb_mode (fs s) cache_key with
    | Some (r, w) =>
        let s' := write_file cache_key (File (put_down (fs s) data) r w) s in
        if (length (put_down (fs s) data) <? length data)%nat
        then (Raised (OSError file_write), s')
        else (Returned tt, s')
    | None => (Raised (OSError open_wb), s)
    end.

(** ** Sockets *)

Definition connect (net : network) (hostname : string) (port : Z)
  : M (list byte -> list recv_event) :=
  emit (Connect hostname port) ;;
  match net hostname port with
  | Accepted reply => ret reply
  | ConnectTimeout => raise socket_timeout
  | Unreachable => raise (OSError sock_connect)
  end.

(** [sock.recv(bufsize)] on a socket whose incoming data is [stream]:
    the bytes read and what is left to read. *)
Definition recv_result (bufsize : nat) (stream : list recv_event)
  : result (list byte * list recv_event) :=
  match stream with
  | [] => Returned ([], [])
  | Chunk data :: rest =>
      Returned (take bufsize data,
                match drop bufsize data with
                | [] => rest
                | more => Chunk more :: rest
                end)
  | Stall :: _ => Raised socket_timeout
  | ConnReset :: _ => Raised (OSError sock_recv)
  end.

Definition recv (bufsize : nat) (stream : list recv_event)
  : M (list byte * list recv_event) :=
  emit (RecvOrigin bufsize) ;;
  lift (recv_result bufsize stream).

(** ** handle_client *)

(** [data.decode('utf-8', errors='ignore')] and [text.encode('utf-8')]. *)
Definition decode (data : list byte) : string :=
  PyStr.utf8_ignore (string_of_list_byte data).
Definition encode (text : string) : list byte := list_byte_of_string text.

(** Truth value of [bytes | None] in an [if]. *)
Definition truthy (data : option (list byte)) : bool :=
  match data with
  | Some (_ :: _) => true
  | _ => false
  end.

Definition forward_msg (hostname path : string) : string :=
  "GET " ++ path ++ " HTTP/1.0" ++ PyStr.CRLF ++
  "Host: " ++ hostname ++ PyStr.CRLF ++
  "User-Agent: CSE310-Proxy" ++ PyStr.CRLF ++
  "Accept: */*" ++ PyStr.CRLF ++
  "Accept-Encoding: identity" ++ PyStr.CRLF ++
  "Connection: close" ++ PyStr.CRLF ++
  PyStr.CRLF.

(** Lines 94 to 130: the checks on the request, each ending in a [print]
    and a [return]; [inr url] when the request passes them all. *)
Definition check_request (request_data : list byte) : report + string :=
  match request_data with
  | [] => inl EmptyRequestData
  | _ :: _ =>
      let request_text := decode request_data in
      match PyStr.split_crlf request_text with
      | [] => inl NoRequestLine
      | EmptyString :: _ => inl NoRequestLine
      | line0 :: _ =>
          let request_line := PyStr.split line0 in
          match request_line with
          | m :: url :: _ =>
              let method := PyStr.upper m in
              if negb (String.eqb method "GET")
              then inl (OnlyGetSupported m)
              else if PyStr.startswith url "https://"
              then inl HttpsNotSupported
              else if PyStr.startswith url "/"
              then inl RelativeURL
              else inr url
          | _ => inl (InvalidRequestLine request_line)
          end
      end
  end.

(** Lines 132 to 144. *)
Definition strip_scheme (url : string) : string :=
  if PyStr.startswith url "http://"
  then PyStr.slice_from (String.length "http://") url
  else url.

Definition hostname_of (url : string) : string :=
  fst (PyStr.split_slash_once url).

Definition path_of (url : string) : string :=
  match snd (PyStr.split_slash_once url) with
  | Some p => "/" ++ p
  | None => "/"
  end.

Definition cache_key_of (url : string) : string := PyStr.replace_slash url.

(** Lines 155 to 171: the [with socket.socket(...)] block. *)
Definition fetch (net : network) (hostname path : string) : M (list byte) :=
  finally
    (let* reply := connect net hostname HTTP_PORT in
     let request := encode (forward_msg hostname path) in
     emit (SendOrigin request) ;;
     let* r := recv BUFSIZE (reply request) in
     ret (fst r))
    (emit CloseOrigin).

(** Lines 132 to 183, for the URL token of a request that passed the
    checks. *)
Definition serve (net : network) (url0 : string) : M unit :=
  let url := strip_scheme url0 in
  let hostname := hostname_of url in
  let path := path_of url in
  let cache_key := cache_key_of url in
  let* cached_data := get_cached_content cache_key in
  if truthy cached_data
  then emit (SendClient (default [] cached_data))
  else
    let* response_data := fetch net hostname path in
    match response_data with
    | [] => print (EmptyResponse hostname)
    | _ :: _ =>
        cache_content cache_key response_data ;;
        emit (SendClient response_data)
    end.

Definition on_exception (e : exn) : M unit :=
  match e with
  | socket_timeout => print TimedOut
  | _ => print (ExceptionRaised e)
  end.



(** Lines 90 to 191 from the return of the read of line 92 on. *)
Definition after_read (net : network) (read : result (list byte)) : M unit :=
  finally
    (try_except
       (let* request_data := lift read in
        match check_request request_data with
        | inl r => print r
        | inr url => serve net url
        end)
       on_exception)
    (emit CloseClient).


(** One session on the cache directory [d] with a client that has sent
    [client_in]: the directory and the trace the session leaves. *)
Definition session (net : network) (d : filesystem) (client_in : list byte)
  : filesystem * list event :=
  let s := snd (after_read net (Returned (take BUFSIZE client_in))
                           (State d [])) in
  (fs s, trace s).

(** ** Views of the cache operations on a directory *)

(** What [get_cached_content] gives on the directory [d]. *)
Definition lookup_result (d : filesystem) (cache_key : string)
  : result (option (list byte)) :=
  fst (get_cached_content cache_key (State d [])).

(** The directory [cache_content] leaves, when it does not raise. *)
Definition stored (d : filesystem) (cache_key : string) (data : list byte)
  : option filesystem :=
  match cache_content cache_key data (State d []) with
  | (Returned _, s) => Some (fs s)
  | (Raised _, _) => None
  end.

(** The directory [cache_content] leaves, whether it raises or not, and
    the call in it that raises when it does. *)
Definition after_store (d : filesystem) (cache_key : string)
    (data : list byte) : filesystem :=
  fs (snd (cache_content cache_key data (State d []))).

Definition failing_call (d : filesystem) (cache_key : string) : io_site :=
  match open_wb_mode d cache_key with
  | None => open_wb
  | Some _ => file_write
  end.

(** The name denotes a file that cannot be opened for reading. *)
Definition read_fault (d : filesystem) (cache_key : string) : bool :=
  match entries d !! cache_key with
  | Some (Regular f) => negb (readable f)
  | _ => false
  end.

(** Host, path and cache key of the URL token of a request, as lines 132
    to 144 derive them. *)
Definition request_host (url : string) : string :=
  hostname_of (strip_scheme url).

Definition request_path (url : string) : string :=
  path_of (strip_scheme url).

Definition request_key (url : string) : string :=
  cache_key_of (strip_scheme url).

(** What the handler sends to the origin for the URL token [url]. *)
Definition forwarded (url : string) : list byte :=
  encode (forward_msg (request_host url) (request_path url)).

(** The events of lines 155 to 171 when the origin accepts the
    connection. *)
Definition fetch_trace (url : string) : list event :=
  [Connect (request_host url) HTTP_PORT; SendOrigin (forwarded url);
   RecvOrigin BUFSIZE; CloseOrigin].

(** The first line of the request and its tokens, as lines 103 and 108
    compute them. *)
Definition first_line (request_data : list byte) : string :=
  hd EmptyString (PyStr.split_crlf (decode request_data)).

Definition tokens (request_data : list byte) : list string :=
  PyStr.split (first_line request_data).

(** ** Reading a trace *)

Fixpoint origin_connections (t : list event) : nat :=
  match t with
  | [] => 0
  | Connect _ _ :: t' => S (origin_connections t')
  | _ :: t' => origin_connections t'
  end.

Fixpoint origin_reads (t : list event) : nat :=
  match t with
  | [] => 0
  | RecvOrigin _ :: t' => S (origin_reads t')
  | _ :: t' => origin_reads t'
  end.

(** The bytes written to the client socket, in order. *)
Fixpoint sent_to_client (t : list event) : list byte :=
  match t with
  | [] => []
  | SendClient data :: t' => data ++ sent_to_client t'
  | _ :: t' => sent_to_client t'
  end.

Fixpoint reports (t : list event) : list report :=
  match t with
  | [] => []
  | PrintError r :: t' => r :: reports t'
  | _ :: t' => reports t'
  end.

(** ** The outcomes of a session

    What a session can leave behind, as far as the client and the cache
    directory see it: the cached bytes sent, the bytes of the single read
    stored and sent, a store that has failed, or nothing sent and the
    directory untouched, after at most one read from an origin. *)
Inductive session_outcome (net : network) (d : filesystem)
    (client_in : list byte) : filesystem * list event -> Prop :=
| served_from_cache url data :
    check_request (take BUFSIZE client_in) = inr url ->
    data <> [] ->
    lookup_result d (request_key url) = Returned (Some data) ->
    session_outcome net d client_in (d, [SendClient data; CloseClient])
| served_from_origin url r reply data rest d' :
    check_request (take BUFSIZE client_in) = inr url ->
    lookup_result d (request_key url) = Returned r ->
    truthy r = false ->
    net (request_host url) HTTP_PORT = Accepted reply ->
    recv_result BUFSIZE (reply (forwarded url)) = Returned (data, rest) ->
    data <> [] ->
    stored d (request_key url) data = Some d' ->
    session_outcome net d client_in
      (d', fetch_trace url ++ [SendClient data; CloseClient])
| store_failed url r reply data rest :
    check_request (take BUFSIZE client_in) = inr url ->
    lookup_result d (request_key url) = Returned r ->
    truthy r = false ->
    net (request_host url) HTTP_PORT = Accepted reply ->
    recv_result BUFSIZE (reply (forwarded url)) = Returned (data, rest) ->
    data <> [] ->
    stored d (request_key url) data = None ->
    session_outcome net d client_in
      (after_store d (request_key url) data,
       fetch_trace url ++
       [PrintError (ExceptionRaised (OSError (failing_call d (request_key url))));
        CloseClient])
| nothing_served t :
    sent_to_client t = [] ->
    origin_reads t <= 1 ->
    session_outcome net d client_in (d, t).

(** ** Concrete clients, origins and cache directories *)

Module Scenario.

(** A request: the request line, then the header lines. *)
Definition request (method url : string) (headers : list string)
  : list byte :=
  encode (method ++ " " ++ url ++ " HTTP/1.1" ++ PyStr.CRLF ++
          fold_right (fun h acc => h ++ PyStr.CRLF ++ acc)%string
                     PyStr.CRLF headers).

Definition get (url : string) : list byte :=
  request "GET" url ["User-Agent: curl/8.5.0"; "Accept: */*"].

Definition get_no_cache (url : string) : list byte :=
  request "GET" url
    ["User-Agent: curl/8.5.0"; "Accept: */*"; "Cache-Control: no-cache"].

(** One origin, answering every request with [stream]. *)
Definition origin (hostname : string) (stream : list recv_event) : network :=
  fun h p =>
    if (String.eqb h hostname && Z.eqb p 80)%bool
    then Accepted (fun _ => stream)
    else Unreachable.

Definition no_origin : network := fun _ _ => Unreachable.

Definition status_line (status : string) : string :=
  "HTTP/1.0 " ++ status ++ PyStr.CRLF ++ PyStr.CRLF.

(** A page delivered in two parts. *)
Definition page_head : list byte := encode (status_line "200 OK" ++ "Hello, ").
Definition page_tail : list byte := encode "world".
Definition two_parts : list recv_event := [Chunk page_head; Chunk page_tail].

Definition not_found : list byte := encode (status_line "404 Not Found").

Definition empty_cache : filesystem := Filesystem ∅ (fun _ => true) None.
Definition read_only_cache : filesystem :=
  Filesystem ∅ (fun _ => false) None.
Definition cache_with (name : string) (f : file) : filesystem :=
  Filesystem {[ name := Regular f ]} (fun _ => true) None.

(** A cache directory on a full disk: files can be created, and no byte
    written. *)
Definition full_disk_cache : filesystem :=
  Filesystem ∅ (fun _ => true) (Some 0).

(** The page of the examples, its origin and the name of its entry. *)
Definition index_url : string := "http://example.com/index.html".
Definition index_key : string := "example.com_index.html".
Definition index_request : list byte := get index_url.
Definition example_com (stream : list recv_event) : network :=
  origin "example.com" stream.

(** The entry of the page: filled, empty, and closed to reading. *)
Definition cached_index : filesystem :=
  cache_with index_key (File page_head true true).
Definition empty_index : filesystem :=
  cache_with index_key (File [] true true).
Definition unreadable_index : filesystem :=
  cache_with index_key (File page_head false true).

(** The root page, with an old copy in the cache and a new one at the
    origin. *)
Definition root_url : string := "http://example.com/".
Definition old_copy : list byte := encode (status_line "200 OK" ++ "old").
Definition new_copy : list byte := encode (status_line "200 OK" ++ "new").
Definition cached_root : filesystem :=
  cache_with "example.com_" (File old_copy true true).
Definition root_origin : network := example_com [Chunk new_copy].
Definition no_cache_request : list byte := get_no_cache root_url.


(** The sessions of the examples. *)
Definition two_parts_session : filesystem * list event :=
  session (example_com two_parts) empty_cache index_request.
Definition empty_entry_session : filesystem * list event :=
  session (example_com [Chunk page_head]) empty_index index_request.
Definition write_error_session : filesystem * list event :=
  session (example_com [Chunk page_head]) read_only_cache index_request.
Definition read_error_session : filesystem * list event :=
  session (example_com [Chunk page_head]) unreadable_index index_request.

End Scenario.

(** ** start_proxy_server *)


(** The sessions of the connections, one after the other, on the cache
    directory [d]: the directory they leave and their traces in order. *)
Fixpoint sessions (accepted : list (network * list byte)) (d : filesystem)
  : filesystem * list event :=
  match accepted with
  | [] => (d, [])
  | (net, client_in) :: later =>
      let '(d1, t1) := session net d client_in in
      let '(d2, t2) := sessions later d1 in
      (d2, t1 ++ t2)
  end.

(** ** More readings of traces and texts *)

Fixpoint client_closes (t : list event) : nat :=
  match t with
  | [] => 0
  | CloseClient :: t' => S (client_closes t')
  | _ :: t' => client_closes t'
  end.

Fixpoint origin_closes (t : list event) : nat :=
  match t with
  | [] => 0
  | CloseOrigin :: t' => S (origin_closes t')
  | _ :: t' => origin_closes t'
  end.

Fixpoint client_sends (t : list event) : nat :=
  match t with
  | [] => 0
  | SendClient _ :: t' => S (client_sends t')
  | _ :: t' => client_sends t'
  end.

(** [c in s] *)
Fixpoint has_char (c : ascii) (s : string) : bool :=
  match s with
  | EmptyString => false
  | String c' rest => (Ascii.eqb c' c || has_char c rest)%bool
  end.

(** A white space character of [str.split()] starts somewhere in [s]. *)
Fixpoint has_space (s : string) : bool :=
  match s with
  | EmptyString => false
  | String c rest => ((0 <? PyStr.space_width s)%nat || has_space rest)%bool
  end.

(** The text is its own decoding: it is made of well-formed sequences. *)
Definition well_formed (s : string) : Prop := PyStr.utf8_ignore s = s.

(** No sequence can go on into [r]: it is empty or starts with a byte
    that is no continuation byte. *)
Definition starts_clean (r : string) : Prop :=
  match r with
  | EmptyString => True
  | String b _ => PyStr.is_cont b = false
  end.


(** The traces a session can leave, with the directory it leaves. *)
Inductive session_shape (d : filesystem) : filesystem * list event -> Prop :=
| shape_refused r :
    session_shape d (d, [PrintError r; CloseClient])
| shape_hit data :
    data <> [] ->
    session_shape d (d, [SendClient data; CloseClient])
| shape_no_connection hostname r :
    session_shape d
      (d, [Connect hostname HTTP_PORT; CloseOrigin; PrintError r; CloseClient])
| shape_no_response hostname request r d' :
    session_shape d
      (d', [Connect hostname HTTP_PORT; SendOrigin request; RecvOrigin BUFSIZE;
            CloseOrigin; PrintError r; CloseClient])
| shape_fetched hostname request data d' :
    data <> [] ->
    session_shape d
      (d', [Connect hostname HTTP_PORT; SendOrigin request; RecvOrigin BUFSIZE;
            CloseOrigin; SendClient data; CloseClient]).

(** * Properties *)

(** ** Sanity checks of the text operations *)

Example split_crlf_ex :
  PyStr.split_crlf ("a" ++ PyStr.CRLF ++ "b" ++ PyStr.CRLF) = ["a"; "b"; EmptyString].
Proof. reflexivity. Qed.

Example split_ex : PyStr.split "  GET   http://h/p  HTTP/1.1 " = ["GET"; "http://h/p"; "HTTP/1.1"].
Proof. reflexivity. Qed.

Example upper_ex : PyStr.upper "gEt" = "GET".
Proof. reflexivity. Qed.

Example split_slash_ex : PyStr.split_slash_once "h/a/b" = ("h", Some "a/b").
Proof. reflexivity. Qed.

Example request_parts_ex :
  request_host Scenario.index_url = "example.com"
  /\ request_path Scenario.index_url = "/index.html"
  /\ request_key Scenario.index_url = "example.com_index.html"
  /\ request_host "example.com" = "example.com"
  /\ request_path "example.com" = "/".
Proof. repeat split. Qed.

Example miss_then_hit_ex :
  session (Scenario.example_com [Chunk Scenario.page_head])
          Scenario.empty_cache Scenario.index_request =
    (Scenario.cached_index,
     [Connect "example.com" 80; SendOrigin (forwarded Scenario.index_url);
      RecvOrigin 4096; CloseOrigin; SendClient Scenario.page_head;
      CloseClient])
  /\ session Scenario.no_origin Scenario.cached_index Scenario.index_request =
    (Scenario.cached_index, [SendClient Scenario.page_head; CloseClient]).
Proof. vm_compute. repeat split. Qed.

(** ** The cache operations *)

Lemma get_cached_content_view (k : string) (s : state) :
  get_cached_content k s = (lookup_result (fs s) k, s).
Proof.
  unfold lookup_result, get_cached_content; cbn.
  destruct (entries (fs s) !! k) as [[f|]|]; try reflexivity.
  destruct (readable f); reflexivity.
Qed.

Lemma store_cases (d : filesystem) (k : string) (data : list byte) :
  (exists r w,
     open_wb_mode d k = Some (r, w)
     /\ stored d k data = Some (after_store d k data)
     /\ after_store d k data =
        Filesystem (<[k := Regular (File data r w)]> (entries d))
                   (can_create d) (write_limit d))
  \/ (exists r w,
        open_wb_mode d k = Some (r, w)
        /\ stored d k data = None
        /\ length (put_down d data) < length data
        /\ after_store d k data =
           Filesystem (<[k := Regular (File (put_down d data) r w)]> (entries d))
                      (can_create d) (write_limit d))
  \/ (open_wb_mode d k = None
      /\ stored d k data = None
      /\ after_store d k data = d).
Proof.
  unfold stored, after_store, cache_content, write_file; cbn [fs trace].
  destruct (open_wb_mode d k) as [[r w]|] eqn:E; [|right; right; auto].
  destruct (length (put_down d data) <? length data)%nat eqn:L;
    cbn [fs trace fst snd].
  - right; left. exists r, w. apply Nat.ltb_lt in L. auto.
  - left. exists r, w. repeat split.
    assert (Hp : put_down d data = data); [|now rewrite Hp].
    apply Nat.ltb_ge in L. unfold put_down in *.
    destruct (write_limit d) as [n|]; [|reflexivity].
    apply take_ge. rewrite length_take in L. lia.
Qed.

Lemma cache_content_view (k : string) (data : list byte) (s : state) :
  cache_content k data s =
  match stored (fs s) k data with
  | Some d' => (Returned tt, State d' (trace s))
  | None =>
      (Raised (OSError (failing_call (fs s) k)),
       State (after_store (fs s) k data) (trace s))
  end.
Proof.
  unfold stored, after_store, failing_call, cache_content, write_file;
    cbn [fs trace].
  destruct (open_wb_mode (fs s) k) as [[r w]|]; [|now destruct s].
  destruct (length (put_down (fs s) data) <? length data)%nat; reflexivity.
Qed.

Lemma stored_after_store (d d' : filesystem) (k : string) (data : list byte) :
  stored d k data = Some d' -> after_store d k data = d'.
Proof.
  unfold stored, after_store.
  destruct (cache_content k data (State d [])) as [[u|e] s']; [|discriminate].
  now intros [= <-].
Qed.

Lemma open_wb_mode_cases (d : filesystem) (k : string) (r w : bool) :
  open_wb_mode d k = Some (r, w) ->
  (exists f, entries d !! k = Some (Regular f)
             /\ writable f = true /\ r = readable f /\ w = writable f)
  \/ (entries d !! k = None /\ can_create d k = true /\ r = true /\ w = true).
Proof.
  unfold open_wb_mode.
  destruct (entries d !! k) as [[f|]|].
  - destruct (writable f) eqn:W; [|discriminate].
    intros [= <- <-]. left. exists f. auto.
  - discriminate.
  - destruct (can_create d k); [|discriminate].
    intros [= <- <-]. right. auto.
Qed.

Lemma stored_entries (d d' : filesystem) (k : string) (data : list byte) :
  stored d k data = Some d' ->
  exists f, entries d' = <[k := Regular f]> (entries d)
            /\ content f = data
            /\ can_create d' = can_create d
            /\ (read_fault d k = false -> readable f = true).
Proof.
  intros Hs. rewrite <- (stored_after_store _ _ _ _ Hs).
  destruct (store_cases d k data)
    as [(r & w & Ho & _ & ->) | [(r & w & _ & Hn & _) | (_ & Hn & _)]];
    try congruence.
  eexists. repeat split. cbn. unfold read_fault.
  destruct (open_wb_mode_cases _ _ _ _ Ho)
    as [(f & -> & _ & -> & _) | (_ & _ & -> & _)]; [|reflexivity].
  now destruct (readable f).
Qed.

Lemma lookup_after_store (d d' : filesystem) (k : string) (data : list byte) :
  stored d k data = Some d' ->
  read_fault d k = false ->
  lookup_result d' k = Returned (Some data).
Proof.
  intros Hs Hr. destruct (stored_entries _ _ _ _ Hs) as (f & He & Hc & _ & Hread).
  unfold lookup_result, get_cached_content; cbn.
  rewrite He, lookup_insert_eq, (Hread Hr), Hc. reflexivity.
Qed.

(** C6. Storing [B] under [k] and then looking [k] up returns exactly [B]:
    when [cache_content k B] returns, on a directory where [k] does not
    name a file closed to reading, [get_cached_content k] returns [B]
    itself and leaves the directory as the store left it. *)
Theorem store_lookup_roundtrip (k : string) (B : list byte) (s s' : state) :
  cache_content k B s = (Returned tt, s') ->
  read_fault (fs s) k = false ->
  get_cached_content k s' = (Returned (Some B), s').
Proof.
  intros Hc Hr. rewrite cache_content_view in Hc.
  destruct (stored (fs s) k B) as [d'|] eqn:Hs; [|discriminate].
  injection Hc as <-. rewrite get_cached_content_view; cbn.
  now rewrite (lookup_after_store _ _ _ _ Hs Hr).
Qed.

(** ** The session, case by case *)

Ltac run_monad :=
  unfold bind, ret, raise, lift, emit, print, finally, try_except;
  cbn [fs trace fst snd app].

Lemma fetch_accepted net hostname path reply d :
  net hostname HTTP_PORT = Accepted reply ->
  fetch net hostname path (State d []) =
  let t := [Connect hostname HTTP_PORT;
            SendOrigin (encode (forward_msg hostname path));
            RecvOrigin BUFSIZE; CloseOrigin] in
  match recv_result BUFSIZE (reply (encode (forward_msg hostname path))) with
  | Returned r => (Returned (fst r), State d t)
  | Raised e => (Raised e, State d t)
  end.
Proof.
  intros Hnet. unfold fetch, connect, recv. run_monad. rewrite Hnet. run_monad.
  destruct (recv_result BUFSIZE _); reflexivity.
Qed.

Lemma serve_hit net url d data :
  lookup_result d (request_key url) = Returned (Some data) ->
  data <> [] ->
  serve net url (State d []) = (Returned tt, State d [SendClient data]).
Proof.
  intros Hl Hne. unfold serve. run_monad.
  rewrite get_cached_content_view. cbn [fs].
  fold (request_key url). rewrite Hl.
  destruct data; [congruence | reflexivity].
Qed.

Lemma serve_read_error net url d e :
  lookup_result d (request_key url) = Raised e ->
  serve net url (State d []) = (Raised e, State d []).
Proof.
  intros Hl. unfold serve. run_monad.
  rewrite get_cached_content_view. cbn [fs].
  fold (request_key url). now rewrite Hl.
Qed.

Lemma serve_miss net url d r :
  lookup_result d (request_key url) = Returned r ->
  truthy r = false ->
  serve net url (State d []) =
  match fetch net (request_host url) (request_path url) (State d []) with
  | (Returned [], s) =>
      (Returned tt, State (fs s) (trace s ++ [PrintError (EmptyResponse (request_host url))]))
  | (Returned (b :: bs), s) =>
      match stored (fs s) (request_key url) (b :: bs) with
      | Some d' => (Returned tt, State d' (trace s ++ [SendClient (b :: bs)]))
      | None =>
          (Raised (OSError (failing_call (fs s) (request_key url))),
           State (after_store (fs s) (request_key url) (b :: bs)) (trace s))
      end
  | (Raised e, s) => (Raised e, s)
  end.
Proof.
  intros Hl Ht. unfold serve. run_monad.
  rewrite get_cached_content_view. cbn [fs].
  fold (request_key url) (request_host url) (request_path url).
  rewrite Hl, Ht.
  destruct (fetch net (request_host url) (request_path url) (State d []))
    as [[[|b bs]|e] s]; try reflexivity.
  rewrite cache_content_view.
  destruct (stored (fs s) (request_key url) (b :: bs)); reflexivity.
Qed.

Lemma session_rejected net d client_in r :
  check_request (take BUFSIZE client_in) = inl r ->
  session net d client_in = (d, [PrintError r; CloseClient]).
Proof.
  intros Hc. unfold session, after_read. run_monad. now rewrite Hc.
Qed.

Lemma session_served net d client_in url :
  check_request (take BUFSIZE client_in) = inr url ->
  session net d client_in =
  match serve net url (State d []) with
  | (Returned _, s) => (fs s, trace s ++ [CloseClient])
  | (Raised socket_timeout, s) => (fs s, trace s ++ [PrintError TimedOut; CloseClient])
  | (Raised (OSError site), s) =>
      (fs s, trace s ++ [PrintError (ExceptionRaised (OSError site)); CloseClient])
  end.
Proof.
  intros Hc. unfold session, after_read. run_monad. rewrite Hc.
  destruct (serve net url (State d [])) as [[[]|[|site]] s]; cbn;
    now rewrite <- ?app_assoc.
Qed.

(** ** The checks on the request *)

Lemma check_request_accepts (request_data : list byte) (url : string) :
  check_request request_data = inr url ->
  exists m rest,
    tokens request_data = m :: url :: rest
    /\ PyStr.upper m = "GET"
    /\ PyStr.startswith url "https://" = false
    /\ PyStr.startswith url "/" = false.
Proof.
  unfold check_request, tokens, first_line.
  destruct request_data as [|b bs]; [discriminate|].
  destruct (PyStr.split_crlf (decode (b :: bs))) as [|[|c line0] ls];
    try discriminate.
  cbn [hd].
  destruct (PyStr.split (String c line0)) as [|m [|u rest]]; try discriminate.
  destruct (String.eqb (PyStr.upper m) "GET") eqn:Em; [|discriminate].
  destruct (PyStr.startswith u "https://") eqn:Es; [discriminate|].
  destruct (PyStr.startswith u "/") eqn:Er; [discriminate|].
  cbn. intros [= ->]. exists m, rest. apply String.eqb_eq in Em. auto.
Qed.



(** ** Failures of the cache directory *)

Lemma session_read_error net d client_in url e :
  check_request (take BUFSIZE client_in) = inr url ->
  lookup_result d (request_key url) = Raised e ->
  exists r, session net d client_in = (d, [PrintError r; CloseClient]).
Proof.
  intros Hc Hl. rewrite (session_served _ _ _ _ Hc), (serve_read_error _ _ _ _ Hl).
  destruct e; cbn; eauto.
Qed.

Lemma lookup_result_returns d k r :
  lookup_result d k = Returned r -> read_fault d k = false.
Proof.
  unfold lookup_result, get_cached_content, read_fault; cbn.
  destruct (entries d !! k) as [[f|]|]; try reflexivity.
  now destruct (readable f).
Qed.

(** ** A miss followed by an accepted connection *)

Lemma session_fetched net d client_in url r reply data rest :
  check_request (take BUFSIZE client_in) = inr url ->
  lookup_result d (request_key url) = Returned r ->
  truthy r = false ->
  net (request_host url) HTTP_PORT = Accepted reply ->
  recv_result BUFSIZE (reply (forwarded url)) = Returned (data, rest) ->
  session net d client_in =
  match data with
  | [] =>
      (d, fetch_trace url ++
          [PrintError (EmptyResponse (request_host url)); CloseClient])
  | _ :: _ =>
      match stored d (request_key url) data with
      | Some d' => (d', fetch_trace url ++ [SendClient data; CloseClient])
      | None =>
          (after_store d (request_key url) data,
           fetch_trace url ++
           [PrintError
              (ExceptionRaised (OSError (failing_call d (request_key url))));
            CloseClient])
      end
  end.
Proof.
  intros Hc Hl Ht Hnet Hrecv.
  rewrite (session_served _ _ _ _ Hc), (serve_miss _ _ _ _ Hl Ht).
  rewrite (fetch_accepted _ _ _ _ _ Hnet). cbv zeta.
  fold (forwarded url). rewrite Hrecv. cbn [fst fs trace].
  destruct data as [|b bs]; [reflexivity|].
  destruct (stored d (request_key url) (b :: bs)); reflexivity.
Qed.

Lemma fetch_trace_reading url t :
  sent_to_client (fetch_trace url ++ t) = sent_to_client t
  /\ origin_connections (fetch_trace url ++ t) = S (origin_connections t)
  /\ origin_reads (fetch_trace url ++ t) = S (origin_reads t)
  /\ reports (fetch_trace url ++ t) = reports t.
Proof. repeat split. Qed.

(** C4, as the code has it. When [get_cached_content] raises on a file
    that cannot be read, the exception reaches the handler of
    [handle_client]: the failure is printed, the client socket is closed,
    nothing is sent to the client and no origin is contacted. *)
Theorem cache_read_error_ends_session
    (net : network) (d : filesystem) (client_in : list byte) (url : string) :
  check_request (take BUFSIZE client_in) = inr url ->
  read_fault d (request_key url) = true ->
  session net d client_in =
    (d, [PrintError (ExceptionRaised (OSError open_rb)); CloseClient])
  /\ origin_connections (snd (session net d client_in)) = 0
  /\ sent_to_client (snd (session net d client_in)) = [].
Proof.
  intros Hc Hf.
  assert (Hl : lookup_result d (request_key url) = Raised (OSError open_rb)).
  { unfold lookup_result, get_cached_content, read_fault in *; cbn.
    destruct (entries d !! request_key url) as [[f|]|]; try discriminate.
    now destruct (readable f). }
  rewrite (session_served _ _ _ _ Hc), (serve_read_error _ _ _ _ Hl).
  now cbn.
Qed.

(** C3, as the code has it. When the origin has answered with [data] and
    [cache_content] raises, at the opening of the file or at the writing,
    the exception reaches the handler of [handle_client]: the failure is
    printed and the client socket is closed, and the line that sends
    [data] to the client is not reached. *)
Theorem cache_write_error_ends_session
    (net : network) (d : filesystem) (client_in : list byte) (url : string)
    (r : option (list byte)) (reply : list byte -> list recv_event)
    (data : list byte) (rest : list recv_event) :
  check_request (take BUFSIZE client_in) = inr url ->
  lookup_result d (request_key url) = Returned r ->
  truthy r = false ->
  net (request_host url) HTTP_PORT = Accepted reply ->
  recv_result BUFSIZE (reply (forwarded url)) = Returned (data, rest) ->
  data <> [] ->
  stored d (request_key url) data = None ->
  snd (session net d client_in) =
    fetch_trace url ++
    [PrintError (ExceptionRaised (OSError (failing_call d (request_key url))));
     CloseClient]
  /\ sent_to_client (snd (session net d client_in)) = []
  /\ reports (snd (session net d client_in)) =
       [ExceptionRaised (OSError (failing_call d (request_key url)))].
Proof.
  intros Hc Hl Ht Hnet Hrecv Hne Hs.
  rewrite (session_fetched _ _ _ _ _ _ _ _ Hc Hl Ht Hnet Hrecv), Hs.
  destruct data; [congruence|]. now cbn.
Qed.

(** ** Every session has one of the three outcomes *)

Lemma truthy_true r : truthy r = true -> exists b bs, r = Some (b :: bs).
Proof. destruct r as [[|b bs]|]; try discriminate. eauto. Qed.

Lemma session_has_outcome net d client_in :
  session_outcome net d client_in (session net d client_in).
Proof.
  destruct (check_request (take BUFSIZE client_in)) as [rep|url] eqn:Hc.
  { rewrite (session_rejected _ _ _ _ Hc). constructor; cbn; [easy | lia]. }
  destruct (lookup_result d (request_key url)) as [r|e] eqn:Hl.
  2:{ destruct (session_read_error net _ _ _ _ Hc Hl) as [rep ->].
      constructor; cbn; [easy | lia]. }
  destruct (truthy r) eqn:Ht.
  { destruct (truthy_true _ Ht) as (b & bs & ->).
    rewrite (session_served _ _ _ _ Hc), (serve_hit net _ _ _ Hl); [|easy].
    cbn. now apply served_from_cache with url. }
  destruct (net (request_host url) HTTP_PORT) as [| |reply] eqn:Hnet.
  1,2: rewrite (session_served _ _ _ _ Hc), (serve_miss _ _ _ _ Hl Ht);
       unfold fetch, connect; run_monad; rewrite Hnet; run_monad;
       constructor; cbn; [easy | lia].
  destruct (recv_result BUFSIZE (reply (forwarded url))) as [[data rest]|e]
    eqn:Hrecv.
  - rewrite (session_fetched _ _ _ _ _ _ _ _ Hc Hl Ht Hnet Hrecv).
    destruct data as [|b bs]; [constructor; cbn; [easy | lia]|].
    destruct (stored d (request_key url) (b :: bs)) as [d'|] eqn:Hs.
    + now apply served_from_origin with r reply rest.
    + now apply store_failed with r reply rest.
  - rewrite (session_served _ _ _ _ Hc), (serve_miss _ _ _ _ Hl Ht).
    rewrite (fetch_accepted _ _ _ _ _ Hnet). cbv zeta.
    fold (forwarded url). rewrite Hrecv.
    destruct e; cbn; (constructor; cbn; [easy | lia]).
Qed.

Lemma session_reads_at_most_once net d client_in :
  origin_reads (snd (session net d client_in)) <= 1.
Proof.
  destruct (session_has_outcome net d client_in); cbn; lia.
Qed.

Lemma session_hit net d client_in url data :
  check_request (take BUFSIZE client_in) = inr url ->
  lookup_result d (request_key url) = Returned (Some data) ->
  data <> [] ->
  session net d client_in = (d, [SendClient data; CloseClient]).
Proof.
  intros Hc Hl Hne.
  now rewrite (session_served _ _ _ _ Hc), (serve_hit net _ _ _ Hl Hne).
Qed.

(** What a session has sent to the client is, afterwards, what the cache
    holds for the request. *)
Lemma relayed_is_cached net d client_in url d' t :
  check_request (take BUFSIZE client_in) = inr url ->
  session net d client_in = (d', t) ->
  sent_to_client t <> [] ->
  lookup_result d' (request_key url) = Returned (Some (sent_to_client t)).
Proof.
  intros Hc Hs Hne. pose proof (session_has_outcome net d client_in) as Ho.
  rewrite Hs in Ho. inversion Ho as [u data Hc' Hd Hl
                  | u r reply data rest d'' Hc' Hl Ht Hnet Hrecv Hd Hst
                  | u r reply data rest Hc' Hl Ht Hnet Hrecv Hd Hst
                  | t' Hnil Hreads]; subst.
  - rewrite Hc in Hc'. injection Hc' as <-. cbn. now rewrite app_nil_r.
  - rewrite Hc in Hc'. injection Hc' as <-.
    cbn [sent_to_client fetch_trace app]. rewrite app_nil_r.
    apply lookup_after_store with d; [assumption|].
    now apply lookup_result_returns with r.
  - now destruct Hne.
  - contradiction.
Qed.

(** ** The fetch *)

(** C1, as the code has it. The fetch is one [recv] of at most [BUFSIZE]
    bytes on the origin socket. When that read returns bytes and the store
    succeeds, what is stored and what is sent to the client are the bytes
    of that read, whatever the origin has still to deliver; and no session
    reads from an origin more than once. *)
Theorem fetch_is_a_single_read
    (net : network) (d : filesystem) (client_in : list byte) (url : string)
    (r : option (list byte)) (reply : list byte -> list recv_event)
    (data : list byte) (rest : list recv_event) (d' : filesystem) :
  check_request (take BUFSIZE client_in) = inr url ->
  lookup_result d (request_key url) = Returned r ->
  truthy r = false ->
  net (request_host url) HTTP_PORT = Accepted reply ->
  reply (forwarded url) = Chunk data :: rest ->
  take BUFSIZE data <> [] ->
  stored d (request_key url) (take BUFSIZE data) = Some d' ->
  session net d client_in =
    (d', fetch_trace url ++ [SendClient (take BUFSIZE data); CloseClient])
  /\ origin_reads (snd (session net d client_in)) = 1
  /\ sent_to_client (snd (session net d client_in)) = take BUFSIZE data
  /\ lookup_result d' (request_key url) = Returned (Some (take BUFSIZE data))
  /\ forall net0 d0 client_in0,
       origin_reads (snd (session net0 d0 client_in0)) <= 1.
Proof.
  intros Hc Hl Ht Hnet Hreply Hne Hs.
  assert (Hrecv : exists rest',
            recv_result BUFSIZE (reply (forwarded url)) =
            Returned (take BUFSIZE data, rest')).
  { rewrite Hreply. cbn [recv_result]. eauto. }
  destruct Hrecv as [rest' Hrecv].
  rewrite (session_fetched _ _ _ _ _ _ _ _ Hc Hl Ht Hnet Hrecv), Hs.
  destruct (take BUFSIZE data) as [|b bs] eqn:E; [congruence|].
  cbn [snd]. destruct (fetch_trace_reading url [SendClient (b :: bs); CloseClient])
    as (-> & _ & -> & _).
  repeat split.
  - cbn. now rewrite app_nil_r.
  - apply lookup_after_store with d; [assumption|].
    now apply lookup_result_returns with r.
  - apply session_reads_at_most_once.
Qed.

(** C7. An empty read from the origin is printed as an empty response:
    nothing is written to the cache directory and nothing is sent to the
    client. And whatever the session, the cache directory is as it was or
    as a call of [cache_content] has left it, made with a non-empty
    sequence of bytes read from the origin. *)
Theorem empty_response_is_not_cached
    (net : network) (d : filesystem) (client_in : list byte) (url : string)
    (r : option (list byte)) (reply : list byte -> list recv_event)
    (rest : list recv_event) :
  check_request (take BUFSIZE client_in) = inr url ->
  lookup_result d (request_key url) = Returned r ->
  truthy r = false ->
  net (request_host url) HTTP_PORT = Accepted reply ->
  recv_result BUFSIZE (reply (forwarded url)) = Returned ([], rest) ->
  (session net d client_in =
     (d, fetch_trace url ++
         [PrintError (EmptyResponse (request_host url)); CloseClient])
   /\ sent_to_client (snd (session net d client_in)) = []
   /\ reports (snd (session net d client_in)) =
        [EmptyResponse (request_host url)])
  /\ (forall net0 d0 client_in0,
        fst (session net0 d0 client_in0) = d0
        \/ exists url0 reply0 data rest0,
             net0 (request_host url0) HTTP_PORT = Accepted reply0
             /\ recv_result BUFSIZE (reply0 (forwarded url0)) =
                Returned (data, rest0)
             /\ data <> []
             /\ fst (session net0 d0 client_in0) =
                after_store d0 (request_key url0) data).
Proof.
  intros Hc Hl Ht Hnet Hrecv. split.
  - rewrite (session_fetched _ _ _ _ _ _ _ _ Hc Hl Ht Hnet Hrecv). now cbn.
  - intros net0 d0 client_in0.
    destruct (session_has_outcome net0 d0 client_in0)
      as [u data _ _ _
         | u r0 reply0 data rest0 d0' _ _ _ Hn Hr Hd Hs
         | u r0 reply0 data rest0 _ _ _ Hn Hr Hd Hs
         | t _ _].
    + now left.
    + right. exists u, reply0, data, rest0.
      now rewrite (stored_after_store _ _ _ _ Hs).
    + right. exists u, reply0, data, rest0. auto.
    + now left.
Qed.

(** ** Cache hits *)

(** C2, as the code has it. When the lookup returns a non-empty sequence
    of bytes, these bytes are sent to the client as they are and the
    session ends without a connection to an origin. This is the case, in
    particular, when the cache directory is the one left by a session for
    the same request that has sent bytes to the client. *)
Theorem cache_hit_is_served_without_origin
    (net : network) (d : filesystem) (client_in : list byte) (url : string)
    (data : list byte) :
  check_request (take BUFSIZE client_in) = inr url ->
  data <> [] ->
  (lookup_result d (request_key url) = Returned (Some data)
   \/ exists net0 d0 t0,
        session net0 d0 client_in = (d, t0) /\ sent_to_client t0 = data) ->
  session net d client_in = (d, [SendClient data; CloseClient])
  /\ origin_connections (snd (session net d client_in)) = 0
  /\ sent_to_client (snd (session net d client_in)) = data.
Proof.
  intros Hc Hne H.
  assert (Hl : lookup_result d (request_key url) = Returned (Some data)).
  { destruct H as [H | (net0 & d0 & t0 & Hs & <-)]; [assumption|].
    now apply relayed_is_cached with net0 d0 client_in. }
  rewrite (session_hit net _ _ _ _ Hc Hl Hne). cbn. now rewrite app_nil_r.
Qed.

(** C9. The cache key is not injective on URLs: [http://host/a_b] and
    [http://host/a/b] have the same key, so that once a session for the
    first has sent a response to the client, a request for the second is
    answered with these very bytes, from the cache. *)
Theorem cache_keys_collide :
  "http://host/a_b" <> "http://host/a/b"
  /\ request_key "http://host/a_b" = request_key "http://host/a/b"
  /\ forall net0 net d0 d t0 client_in1 client_in2,
       check_request (take BUFSIZE client_in1) = inr "http://host/a_b" ->
       check_request (take BUFSIZE client_in2) = inr "http://host/a/b" ->
       session net0 d0 client_in1 = (d, t0) ->
       sent_to_client t0 <> [] ->
       session net d client_in2 =
         (d, [SendClient (sent_to_client t0); CloseClient]).
Proof.
  split; [discriminate|]. split; [reflexivity|].
  intros net0 net d0 d t0 c1 c2 Hc1 Hc2 Hs Hne.
  apply session_hit with "http://host/a/b"; [assumption| |assumption].
  change (request_key "http://host/a/b") with (request_key "http://host/a_b").
  now apply relayed_is_cached with net0 d0 c1.
Qed.

(** C10. The bytes read from the origin are stored and sent without a look
    at the status line: whatever non-empty [data] the read returns, when
    the store succeeds the cache holds [data] under the key of the URL, and
    every later request for that URL is answered with [data] from the
    cache. *)
Theorem response_is_cached_whatever_its_status
    (net : network) (d : filesystem) (client_in : list byte) (url : string)
    (r : option (list byte)) (reply : list byte -> list recv_event)
    (data : list byte) (rest : list recv_event) (d' : filesystem) :
  check_request (take BUFSIZE client_in) = inr url ->
  lookup_result d (request_key url) = Returned r ->
  truthy r = false ->
  net (request_host url) HTTP_PORT = Accepted reply ->
  recv_result BUFSIZE (reply (forwarded url)) = Returned (data, rest) ->
  data <> [] ->
  stored d (request_key url) data = Some d' ->
  session net d client_in =
    (d', fetch_trace url ++ [SendClient data; CloseClient])
  /\ lookup_result d' (request_key url) = Returned (Some data)
  /\ forall net' client_in',
       check_request (take BUFSIZE client_in') = inr url ->
       session net' d' client_in' = (d', [SendClient data; CloseClient]).
Proof.
  intros Hc Hl Ht Hnet Hrecv Hne Hs.
  assert (Hl' : lookup_result d' (request_key url) = Returned (Some data)).
  { apply lookup_after_store with d; [assumption|].
    now apply lookup_result_returns with r. }
  rewrite (session_fetched _ _ _ _ _ _ _ _ Hc Hl Ht Hnet Hrecv), Hs.
  destruct data as [|b bs]; [congruence|].
  repeat split; [assumption|].
  intros net' client_in' Hc'. now apply session_hit with url.
Qed.

(** ** The request line alone decides the session *)

Lemma session_depends_on_url_only net d client_in1 client_in2 url :
  check_request (take BUFSIZE client_in1) = inr url ->
  check_request (take BUFSIZE client_in2) = inr url ->
  session net d client_in1 = session net d client_in2.
Proof.
  intros H1 H2.
  now rewrite (session_served _ _ _ _ H1), (session_served _ _ _ _ H2).
Qed.

(** C8, on the code. A GET request that carries [Cache-Control: no-cache]
    goes through the cache lookup like any other: with a copy in the
    cache, the old copy is what the client receives, the origin is not
    contacted, and the session is the one of the same request without the
    directive. *)
Theorem no_cache_request_is_served_from_cache :
  check_request (take BUFSIZE Scenario.no_cache_request) = inr Scenario.root_url
  /\ session Scenario.root_origin Scenario.cached_root
             Scenario.no_cache_request =
       (Scenario.cached_root, [SendClient Scenario.old_copy; CloseClient])
  /\ origin_connections
       (snd (session Scenario.root_origin Scenario.cached_root
                     Scenario.no_cache_request)) = 0
  /\ session Scenario.root_origin Scenario.cached_root
             Scenario.no_cache_request =
     session Scenario.root_origin Scenario.cached_root
             (Scenario.get Scenario.root_url)
  /\ session Scenario.root_origin Scenario.empty_cache
             Scenario.no_cache_request =
       (Scenario.cache_with "example.com_" (File Scenario.new_copy true true),
        fetch_trace Scenario.root_url ++
        [SendClient Scenario.new_copy; CloseClient]).
Proof. vm_compute. repeat split. Qed.

(** ** The claims the code does not meet, at concrete sessions *)

(** C1 fails: the origin delivers the page in two parts and closes; the
    client receives, and the cache holds, the first part only. *)
Lemma single_read_drops_second_part :
  full_response Scenario.two_parts = Scenario.page_head ++ Scenario.page_tail
  /\ sent_to_client (snd Scenario.two_parts_session) = Scenario.page_head
  /\ lookup_result (fst Scenario.two_parts_session) Scenario.index_key =
       Returned (Some Scenario.page_head)
  /\ sent_to_client (snd Scenario.two_parts_session) <> full_response Scenario.two_parts.
Proof. vm_compute. repeat split. discriminate. Qed.

(** C2 fails: the key is in the store, with an empty file; the lookup
    returns its (empty) content, and the handler goes to the origin. *)
Lemma empty_entry_goes_to_origin :
  request_key Scenario.index_url = Scenario.index_key
  /\ entries Scenario.empty_index !! Scenario.index_key = Some (Regular (File [] true true))
  /\ lookup_result Scenario.empty_index Scenario.index_key = Returned (Some [])
  /\ origin_connections (snd Scenario.empty_entry_session) = 1
  /\ sent_to_client (snd Scenario.empty_entry_session) = Scenario.page_head.
Proof. vm_compute. repeat split. Qed.

(** C3 fails: the origin has answered, the store raises (no file can be
    created in the cache directory), and nothing reaches the client. *)
Lemma write_error_drops_response :
  stored Scenario.read_only_cache Scenario.index_key Scenario.page_head = None
  /\ origin_reads (snd Scenario.write_error_session) = 1
  /\ sent_to_client (snd Scenario.write_error_session) = []
  /\ sent_to_client (snd Scenario.write_error_session) <> Scenario.page_head
  /\ reports (snd Scenario.write_error_session) = [ExceptionRaised (OSError open_wb)].
Proof. vm_compute. repeat split. discriminate. Qed.

(** A store that fails at the writing leaves the entry it has opened:
    on a full disk the session ends with an empty file under the key. *)
Example failed_write_leaves_an_empty_entry :
  entries (fst (session (Scenario.example_com [Chunk Scenario.page_head])
                        Scenario.full_disk_cache Scenario.index_request))
    !! Scenario.index_key = Some (Regular (File [] true true))
  /\ entries Scenario.full_disk_cache !! Scenario.index_key = None.
Proof. vm_compute. repeat split. Qed.

(** C4 fails: the entry cannot be read, and the session ends there, with
    an origin that would have answered. *)
Lemma read_error_does_not_fetch :
  lookup_result Scenario.unreadable_index Scenario.index_key =
    Raised (OSError open_rb)
  /\ Scenario.example_com [Chunk Scenario.page_head] "example.com" HTTP_PORT
     <> Unreachable
  /\ origin_connections (snd Scenario.read_error_session) = 0
  /\ sent_to_client (snd Scenario.read_error_session) = []
  /\ snd Scenario.read_error_session = [PrintError (ExceptionRaised (OSError open_rb)); CloseClient].
Proof. vm_compute. repeat split. discriminate. Qed.


(** ** The theorems at concrete sessions *)

Ltac computed := vm_compute; first [reflexivity | discriminate].

(** C1 at the page delivered in two parts. *)
Lemma fetch_is_a_single_read_witness :
  Scenario.two_parts = [Chunk Scenario.page_head; Chunk Scenario.page_tail]
  /\ session (Scenario.example_com Scenario.two_parts) Scenario.empty_cache
             Scenario.index_request =
       (Scenario.cached_index,
        fetch_trace Scenario.index_url ++
        [SendClient (take BUFSIZE Scenario.page_head); CloseClient])
  /\ origin_reads
       (snd (session (Scenario.example_com Scenario.two_parts)
                     Scenario.empty_cache Scenario.index_request)) = 1
  /\ sent_to_client
       (snd (session (Scenario.example_com Scenario.two_parts)
                     Scenario.empty_cache Scenario.index_request)) =
     take BUFSIZE Scenario.page_head
  /\ lookup_result Scenario.cached_index (request_key Scenario.index_url) =
     Returned (Some (take BUFSIZE Scenario.page_head))
  /\ forall net0 d0 client_in0,
       origin_reads (snd (session net0 d0 client_in0)) <= 1.
Proof.
  split; [reflexivity|].
  apply (fetch_is_a_single_read
           (Scenario.example_com Scenario.two_parts) Scenario.empty_cache
           Scenario.index_request Scenario.index_url None
           (fun _ => Scenario.two_parts) Scenario.page_head
           [Chunk Scenario.page_tail] Scenario.cached_index); computed.
Defined.

(** C2 at a filled entry, and at the directory a first session leaves. *)
Lemma cache_hit_is_served_without_origin_witness :
  (session Scenario.no_origin Scenario.cached_index Scenario.index_request =
     (Scenario.cached_index, [SendClient Scenario.page_head; CloseClient])
   /\ origin_connections
        (snd (session Scenario.no_origin Scenario.cached_index
                      Scenario.index_request)) = 0
   /\ sent_to_client
        (snd (session Scenario.no_origin Scenario.cached_index
                      Scenario.index_request)) = Scenario.page_head)
  /\ session (Scenario.example_com Scenario.two_parts) Scenario.empty_cache
             Scenario.index_request =
       (Scenario.cached_index,
        fetch_trace Scenario.index_url ++
        [SendClient Scenario.page_head; CloseClient]).
Proof.
  split; [|computed].
  apply (cache_hit_is_served_without_origin
           Scenario.no_origin Scenario.cached_index Scenario.index_request
           Scenario.index_url Scenario.page_head); [computed | computed |].
  right. exists (Scenario.example_com Scenario.two_parts), Scenario.empty_cache,
    (fetch_trace Scenario.index_url ++
     [SendClient Scenario.page_head; CloseClient]).
  split; computed.
Defined.

(** C3 at a cache directory on a full disk: the file is created and
    nothing can be written to it. *)
Lemma cache_write_error_ends_session_witness :
  stored Scenario.full_disk_cache (request_key Scenario.index_url)
         Scenario.page_head = None
  /\ snd (session (Scenario.example_com [Chunk Scenario.page_head])
                  Scenario.full_disk_cache Scenario.index_request) =
       fetch_trace Scenario.index_url ++
       [PrintError (ExceptionRaised (OSError file_write)); CloseClient]
  /\ sent_to_client
       (snd (session (Scenario.example_com [Chunk Scenario.page_head])
                     Scenario.full_disk_cache Scenario.index_request)) = []
  /\ reports
       (snd (session (Scenario.example_com [Chunk Scenario.page_head])
                     Scenario.full_disk_cache Scenario.index_request)) =
     [ExceptionRaised (OSError file_write)].
Proof.
  split; [computed|].
  apply (cache_write_error_ends_session
           (Scenario.example_com [Chunk Scenario.page_head])
           Scenario.full_disk_cache Scenario.index_request Scenario.index_url
           None (fun _ => [Chunk Scenario.page_head]) Scenario.page_head []);
    computed.
Defined.

(** C4 at an entry closed to reading. *)
Lemma cache_read_error_ends_session_witness :
  read_fault Scenario.unreadable_index (request_key Scenario.index_url) = true
  /\ session (Scenario.example_com [Chunk Scenario.page_head])
             Scenario.unreadable_index Scenario.index_request =
       (Scenario.unreadable_index,
        [PrintError (ExceptionRaised (OSError open_rb)); CloseClient])
  /\ origin_connections
       (snd (session (Scenario.example_com [Chunk Scenario.page_head])
                     Scenario.unreadable_index Scenario.index_request)) = 0
  /\ sent_to_client
       (snd (session (Scenario.example_com [Chunk Scenario.page_head])
                     Scenario.unreadable_index Scenario.index_request)) = [].
Proof.
  split; [computed|].
  apply (cache_read_error_ends_session
           (Scenario.example_com [Chunk Scenario.page_head])
           Scenario.unreadable_index Scenario.index_request
           Scenario.index_url); computed.
Defined.


(** C6 at a new entry of the empty cache directory. *)
Lemma store_lookup_roundtrip_witness :
  cache_content Scenario.index_key Scenario.page_head
                (State Scenario.empty_cache []) =
    (Returned tt, State Scenario.cached_index [])
  /\ get_cached_content Scenario.index_key (State Scenario.cached_index []) =
     (Returned (Some Scenario.page_head), State Scenario.cached_index []).
Proof.
  assert (H : cache_content Scenario.index_key Scenario.page_head
                (State Scenario.empty_cache []) =
              (Returned tt, State Scenario.cached_index [])) by computed.
  split; [exact H|].
  apply (store_lookup_roundtrip Scenario.index_key Scenario.page_head
           (State Scenario.empty_cache []) (State Scenario.cached_index []) H).
  computed.
Defined.

(** C7 at an origin that closes the connection without a byte. *)
Lemma empty_response_is_not_cached_witness :
  recv_result BUFSIZE [] = Returned ([], [])
  /\ session (Scenario.example_com []) Scenario.empty_cache
             Scenario.index_request =
       (Scenario.empty_cache,
        fetch_trace Scenario.index_url ++
        [PrintError (EmptyResponse (request_host Scenario.index_url)); CloseClient])
  /\ sent_to_client
       (snd (session (Scenario.example_com []) Scenario.empty_cache
                     Scenario.index_request)) = []
  /\ reports
       (snd (session (Scenario.example_com []) Scenario.empty_cache
                     Scenario.index_request)) =
     [EmptyResponse (request_host Scenario.index_url)].
Proof.
  split; [reflexivity|].
  apply (empty_response_is_not_cached
           (Scenario.example_com []) Scenario.empty_cache
           Scenario.index_request Scenario.index_url None (fun _ => []) []);
    computed.
Defined.

(** C9 at a first session that fetches [http://host/a_b]. *)
Lemma cache_keys_collide_witness :
  session Scenario.no_origin
          (fst (session (Scenario.origin "host" [Chunk Scenario.page_head])
                        Scenario.empty_cache
                        (Scenario.get "http://host/a_b")))
          (Scenario.get "http://host/a/b") =
    (fst (session (Scenario.origin "host" [Chunk Scenario.page_head])
                  Scenario.empty_cache (Scenario.get "http://host/a_b")),
     [SendClient Scenario.page_head; CloseClient]).
Proof.
  apply (proj2 (proj2 cache_keys_collide)
           (Scenario.origin "host" [Chunk Scenario.page_head])
           Scenario.no_origin Scenario.empty_cache _
           (fetch_trace "http://host/a_b" ++
            [SendClient Scenario.page_head; CloseClient])
           (Scenario.get "http://host/a_b") (Scenario.get "http://host/a/b"));
    computed.
Defined.

(** C10 at an origin that answers [404 Not Found]. *)
Lemma response_is_cached_whatever_its_status_witness :
  Scenario.not_found = encode (Scenario.status_line "404 Not Found")
  /\ session (Scenario.example_com [Chunk Scenario.not_found])
             Scenario.empty_cache Scenario.index_request =
       (Scenario.cache_with Scenario.index_key
          (File Scenario.not_found true true),
        fetch_trace Scenario.index_url ++
        [SendClient Scenario.not_found; CloseClient])
  /\ lookup_result
       (Scenario.cache_with Scenario.index_key
          (File Scenario.not_found true true))
       (request_key Scenario.index_url) =
     Returned (Some Scenario.not_found)
  /\ forall net' client_in',
       check_request (take BUFSIZE client_in') = inr Scenario.index_url ->
       session net'
               (Scenario.cache_with Scenario.index_key
                  (File Scenario.not_found true true))
               client_in' =
         (Scenario.cache_with Scenario.index_key
            (File Scenario.not_found true true),
          [SendClient Scenario.not_found; CloseClient]).
Proof.
  split; [reflexivity|].
  apply (response_is_cached_whatever_its_status
           (Scenario.example_com [Chunk Scenario.not_found])
           Scenario.empty_cache Scenario.index_request Scenario.index_url
           None (fun _ => [Chunk Scenario.not_found]) Scenario.not_found []
           (Scenario.cache_with Scenario.index_key
              (File Scenario.not_found true true)));
    computed.
Defined.

(** * Further properties of the proxy *)

(** ** The shape of a session *)

Lemma session_has_shape net d client_in :
  session_shape d (session net d client_in).
Proof.
  destruct (check_request (take BUFSIZE client_in)) as [rep|url] eqn:Hc.
  { rewrite (session_rejected _ _ _ _ Hc). constructor. }
  destruct (lookup_result d (request_key url)) as [r|e] eqn:Hl.
  2:{ destruct (session_read_error net _ _ _ _ Hc Hl) as [rep ->].
      constructor. }
  destruct (truthy r) eqn:Ht.
  { destruct (truthy_true _ Ht) as (b & bs & ->).
    rewrite (session_hit net _ _ _ _ Hc Hl); [|easy]. now constructor. }
  destruct (net (request_host url) HTTP_PORT) as [| |reply] eqn:Hnet.
  1,2: rewrite (session_served _ _ _ _ Hc), (serve_miss _ _ _ _ Hl Ht);
       unfold fetch, connect; run_monad; rewrite Hnet; run_monad;
       constructor.
  destruct (recv_result BUFSIZE (reply (forwarded url))) as [[data rest]|e]
    eqn:Hrecv.
  - rewrite (session_fetched _ _ _ _ _ _ _ _ Hc Hl Ht Hnet Hrecv).
    destruct data as [|b bs]; [constructor|].
    destruct (stored d (request_key url) (b :: bs)) as [d'|] eqn:Hs.
    + now constructor.
    + constructor.
  - rewrite (session_served _ _ _ _ Hc), (serve_miss _ _ _ _ Hl Ht).
    rewrite (fetch_accepted _ _ _ _ _ Hnet). cbv zeta.
    fold (forwarded url). rewrite Hrecv.
    destruct e; cbn; constructor.
Qed.

(** X1. Whatever the request, the network and the cache directory, a
    session closes the client socket once, as its last act; it opens at
    most one connection, to port 80, closes the origin socket as often as
    it has opened one, reads from the origin at most once and writes to
    the client at most once. *)
Theorem session_closes_its_sockets
    (net : network) (d : filesystem) (client_in : list byte) :
  last (snd (session net d client_in)) = Some CloseClient
  /\ client_closes (snd (session net d client_in)) = 1
  /\ origin_connections (snd (session net d client_in)) <= 1
  /\ origin_closes (snd (session net d client_in)) =
     origin_connections (snd (session net d client_in))
  /\ client_sends (snd (session net d client_in)) <= 1
  /\ forall hostname port,
       In (Connect hostname port) (snd (session net d client_in)) ->
       port = 80%Z.
Proof.
  destruct (session_has_shape net d client_in); unfold HTTP_PORT; cbn;
    (repeat split; try lia);
    intros h p Hin; repeat (destruct Hin as [Hin|Hin]; [congruence|]);
    try contradiction.
Qed.

(** X2. No failure is silent and no success is reported as a failure: a
    session that has sent bytes to the client has printed no error, and a
    session that has sent nothing has printed exactly one. *)
Theorem session_reports_every_failure
    (net : network) (d : filesystem) (client_in : list byte) :
  (sent_to_client (snd (session net d client_in)) <> [] /\
   reports (snd (session net d client_in)) = [])
  \/ (sent_to_client (snd (session net d client_in)) = [] /\
      exists r, reports (snd (session net d client_in)) = [r]).
Proof.
  destruct (session_has_shape net d client_in) as [r|data H|h r|h m r|h m data d' H];
    cbn; rewrite ?app_nil_r; eauto.
Qed.

(** ** Failures of the origin *)

(** X3. When the origin does not accept the connection, the session ends
    after the attempt: the origin socket is closed, a time-out is printed
    as such and any other failure as an exception, nothing is sent to the
    client and the cache directory is as it was. *)
Theorem connect_failure_ends_session
    (net : network) (d : filesystem) (client_in : list byte) (url : string)
    (r : option (list byte)) :
  check_request (take BUFSIZE client_in) = inr url ->
  lookup_result d (request_key url) = Returned r ->
  truthy r = false ->
  (forall reply, net (request_host url) HTTP_PORT <> Accepted reply) ->
  session net d client_in =
    (d, [Connect (request_host url) HTTP_PORT; CloseOrigin;
         PrintError (match net (request_host url) HTTP_PORT with
                     | ConnectTimeout => TimedOut
                     | _ => ExceptionRaised (OSError sock_connect)
                     end);
         CloseClient]).
Proof.
  intros Hc Hl Ht Hnet.
  rewrite (session_served _ _ _ _ Hc), (serve_miss _ _ _ _ Hl Ht).
  unfold fetch, connect. run_monad.
  destruct (net (request_host url) HTTP_PORT) as [| |reply] eqn:E;
    run_monad; try reflexivity.
  now destruct (Hnet reply).
Qed.

(** X4. When the single read from the origin fails, the session ends
    there: a read that meets no byte within the time-out is printed as a
    time-out, a failed connection as an exception; nothing is sent to the
    client and the cache directory is as it was. *)
Theorem read_failure_ends_session
    (net : network) (d : filesystem) (client_in : list byte) (url : string)
    (r : option (list byte)) (reply : list byte -> list recv_event)
    (e : exn) :
  check_request (take BUFSIZE client_in) = inr url ->
  lookup_result d (request_key url) = Returned r ->
  truthy r = false ->
  net (request_host url) HTTP_PORT = Accepted reply ->
  recv_result BUFSIZE (reply (forwarded url)) = Raised e ->
  session net d client_in =
    (d, fetch_trace url ++
        [PrintError (match e with
                     | socket_timeout => TimedOut
                     | OSError _ => ExceptionRaised e
                     end);
         CloseClient])
  /\ (hd_error (reply (forwarded url)) = Some Stall -> e = socket_timeout)
  /\ (hd_error (reply (forwarded url)) = Some ConnReset ->
      e = OSError sock_recv).
Proof.
  intros Hc Hl Ht Hnet Hrecv. split.
  - rewrite (session_served _ _ _ _ Hc), (serve_miss _ _ _ _ Hl Ht).
    rewrite (fetch_accepted _ _ _ _ _ Hnet). cbv zeta.
    fold (forwarded url). rewrite Hrecv. now destruct e.
  - destruct (reply (forwarded url)) as [|[data| |] rest]; cbn in *;
      split; congruence.
Qed.

(** ** What a session does to the cache directory *)

Lemma after_store_keeps_the_rest (d : filesystem) (k : string) (data : list byte) :
  can_create (after_store d k data) = can_create d
  /\ write_limit (after_store d k data) = write_limit d
  /\ (forall k', k' <> k ->
      entries (after_store d k data) !! k' = entries d !! k')
  /\ (entries d !! k = Some Directory ->
      entries (after_store d k data) !! k = Some Directory)
  /\ (forall f0, entries d !! k = Some (Regular f0) ->
      exists f, entries (after_store d k data) !! k = Some (Regular f)
                /\ readable f = readable f0 /\ writable f = writable f0).
Proof.
  destruct (store_cases d k data)
    as [(r & w & Ho & _ & ->) | [(r & w & Ho & _ & _ & ->) | (_ & _ & ->)]];
    cbn [entries can_create write_limit].
  3: { repeat split; eauto. }
  all: repeat split;
    [ intros k' Hk; now rewrite lookup_insert_ne
    | intros Hd; unfold open_wb_mode in Ho; rewrite Hd in Ho; discriminate
    | intros f0 Hf; rewrite lookup_insert_eq; eexists; split; [reflexivity|];
      destruct (open_wb_mode_cases _ _ _ _ Ho)
        as [(f & Hf' & _ & -> & ->) | (Hn & _)]; [|congruence];
      rewrite Hf in Hf'; injection Hf' as <-; now cbn ].
Qed.

Lemma lookup_result_same_entry (d d' : filesystem) (k : string) :
  entries d' !! k = entries d !! k ->
  lookup_result d' k = lookup_result d k.
Proof.
  unfold lookup_result, get_cached_content; cbn. intros ->.
  destruct (entries d !! k) as [[f|]|]; try reflexivity.
  now destruct (readable f).
Qed.


Lemma session_keeps_entry
    (net : network) (d : filesystem) (client_in : list byte)
    (k : string) (data : list byte) :
  lookup_result d k = Returned (Some data) ->
  data <> [] ->
  lookup_result (fst (session net d client_in)) k = Returned (Some data).
Proof.
  intros Hl Hne.
  assert (H : fst (session net d client_in) = d
              \/ exists u r b,
                   lookup_result d (request_key u) = Returned r
                   /\ truthy r = false
                   /\ fst (session net d client_in) =
                      after_store d (request_key u) b).
  { destruct (session_has_outcome net d client_in)
      as [u b _ _ _
         | u r reply b rest d' _ Hl' Ht _ _ _ Hs
         | u r reply b rest _ Hl' Ht _ _ _ Hs
         | t _ _]; cbn [fst]; eauto.
    - right. exists u, r, b. now rewrite (stored_after_store _ _ _ _ Hs).
    - right. exists u, r, b. auto. }
  destruct H as [-> | (u & r & b & Hl' & Ht & ->)]; [assumption|].
  destruct (decide (k = request_key u)) as [->|Hk].
  - rewrite Hl in Hl'. injection Hl' as <-.
    destruct data; [congruence | discriminate].
  - destruct (after_store_keeps_the_rest d (request_key u) b) as (_ & _ & Hfr & _).
    now rewrite (lookup_result_same_entry _ _ _ (Hfr k Hk)).
Qed.

(** X6. An entry that holds bytes and can be read is never written again:
    after any session, for any request, the lookup of its key returns the
    same bytes. The proxy has no way to refresh what it has cached. *)
Theorem cached_entry_is_never_replaced
    (net : network) (d : filesystem) (client_in : list byte)
    (k : string) (data : list byte) :
  lookup_result d k = Returned (Some data) ->
  data <> [] ->
  lookup_result (fst (session net d client_in)) k = Returned (Some data).
Proof. apply session_keeps_entry. Qed.

(** ** Stores one after the other *)

Lemma stored_iff (d d' : filesystem) (k : string) (data : list byte) :
  stored d k data = Some d' <->
  exists r w,
    open_wb_mode d k = Some (r, w)
    /\ put_down d data = data
    /\ d' = Filesystem (<[k := Regular (File data r w)]> (entries d))
                       (can_create d) (write_limit d).
Proof.
  unfold stored, cache_content, write_file; cbn [fs trace].
  destruct (open_wb_mode d k) as [[r w]|]; [|split; [discriminate|]].
  2: { intros (r & w & H & _). discriminate. }
  destruct (length (put_down d data) <? length data)%nat eqn:L;
    cbn [fs trace fst snd].
  - split; [discriminate|]. intros (r' & w' & _ & Hp & _).
    rewrite Hp in L. apply Nat.ltb_lt in L. lia.
  - assert (Hp : put_down d data = data).
    { apply Nat.ltb_ge in L. unfold put_down in *.
      destruct (write_limit d) as [n|]; [|reflexivity].
      apply take_ge. rewrite length_take in L. lia. }
    rewrite Hp. split.
    + intros [= <-]. exists r, w. auto.
    + intros (r' & w' & [= <- <-] & _ & ->). reflexivity.
Qed.

(** X7. When two stores under the same key both return, the second leaves
    no trace of the first: the directory is the one a single store of the
    second bytes would have left, the entry holds the second bytes, which
    a lookup returns unless the file cannot be read, and the lookup of
    every other key is what it was before both stores. *)
Theorem second_store_wins
    (d d1 d2 : filesystem) (k : string) (B B' : list byte) :
  stored d k B = Some d1 ->
  stored d1 k B' = Some d2 ->
  stored d k B' = Some d2
  /\ (exists f, entries d2 !! k = Some (Regular f) /\ content f = B')
  /\ (lookup_result d2 k = Returned (Some B')
      \/ lookup_result d2 k = Raised (OSError open_rb))
  /\ forall k', k' <> k -> lookup_result d2 k' = lookup_result d k'.
Proof.
  intros H1 H2.
  apply stored_iff in H1 as (r & w & Ho & Hp & ->).
  apply stored_iff in H2 as (r' & w' & Ho' & Hp' & ->).
  cbn [entries can_create write_limit] in *.
  assert (Hrw : w = true /\ r' = r /\ w' = w).
  { unfold open_wb_mode in Ho'. cbn [entries] in Ho'.
    rewrite lookup_insert_eq in Ho'. cbn in Ho'.
    destruct w; [|discriminate]. now injection Ho' as <- <-. }
  destruct Hrw as (-> & -> & ->).
  rewrite insert_insert_eq.
  assert (HpB : put_down d B' = B') by exact Hp'.
  repeat split.
  - apply stored_iff. exists r, true. auto.
  - exists (File B' r true). now rewrite lookup_insert_eq.
  - unfold lookup_result, get_cached_content; cbn.
    rewrite lookup_insert_eq; cbn. destruct r; auto.
  - intros k' Hk. apply lookup_result_same_entry; cbn.
    now rewrite lookup_insert_ne.
Qed.

(** ** Strings *)

Lemma app_String (c : ascii) (a b : string) :
  (String c a ++ b)%string = String c (a ++ b)%string.
Proof. reflexivity. Qed.

Lemma app_empty_l (s : string) : ("" ++ s)%string = s.
Proof. reflexivity. Qed.

Lemma app_empty_r (s : string) : (s ++ "")%string = s.
Proof. induction s as [|c s IH]; [reflexivity|]. now rewrite app_String, IH. Qed.

Lemma string_app_assoc (a b c : string) :
  ((a ++ b) ++ c)%string = (a ++ b ++ c)%string.
Proof.
  induction a as [|x a IH]; [reflexivity|]. now rewrite !app_String, IH.
Qed.

Lemma string_length_app (a b : string) :
  String.length (a ++ b)%string = String.length a + String.length b.
Proof.
  induction a as [|x a IH]; [reflexivity|].
  rewrite app_String. cbn [String.length]. now rewrite IH.
Qed.

Lemma string_app_inj (a a' b b' : string) :
  (a ++ b)%string = (a' ++ b')%string ->
  String.length a = String.length a' ->
  a = a' /\ b = b'.
Proof.
  revert a'. induction a as [|x a IH]; intros [|x' a'] H Hl;
    try discriminate.
  - now split.
  - rewrite !app_String in H. injection H as <- H. injection Hl as Hl.
    destruct (IH a' H Hl) as [-> ->]. now split.
Qed.

(** ** Host, path and cache key of a URL *)

Lemma split_slash_once_parts (u : string) :
  has_char "/" (fst (PyStr.split_slash_once u)) = false
  /\ match snd (PyStr.split_slash_once u) with
     | Some p => u = (fst (PyStr.split_slash_once u) ++ "/" ++ p)%string
                 /\ has_char "/" u = true
     | None => u = fst (PyStr.split_slash_once u) /\ has_char "/" u = false
     end.
Proof.
  induction u as [|c u IH]; [now cbn|].
  cbn [PyStr.split_slash_once has_char].
  destruct (Ascii.eqb c "/") eqn:E.
  - apply Ascii.eqb_eq in E as ->. cbn. repeat split.
  - destruct (PyStr.split_slash_once u) as [h [p|]];
      cbn [fst snd has_char orb] in *;
      rewrite E; destruct IH as [Hh [Hu Hs]]; repeat split;
      try assumption.
    + now rewrite Hu at 1.
    + now rewrite Hu at 1.
Qed.

Lemma startswith_slice (s p : string) :
  PyStr.startswith s p = true ->
  s = (p ++ PyStr.slice_from (String.length p) s)%string.
Proof.
  unfold PyStr.startswith. revert s.
  induction p as [|c p IH]; intros s; [reflexivity|].
  destruct s as [|c' s]; cbn; [discriminate|].
  destruct (ascii_dec c c') as [->|]; [|discriminate].
  intros H. now rewrite (IH s H) at 1.
Qed.

(** X8. Host and path are the two sides of the first slash of the URL
    without its [http://]: the host has no slash, the path starts with
    one, and host followed by path is that URL again; without a slash the
    host is the whole of it and the path is [/]. A URL with the scheme is
    the scheme, the host and the path when a slash follows the host;
    when none does, the scheme, the host and the path are the URL with a
    slash added at its end. *)
Theorem host_and_path_rebuild_url (url : string) :
  has_char "/" (request_host url) = false
  /\ PyStr.startswith (request_path url) "/" = true
  /\ (has_char "/" (strip_scheme url) = true ->
      (request_host url ++ request_path url)%string = strip_scheme url)
  /\ (has_char "/" (strip_scheme url) = false ->
      request_host url = strip_scheme url /\ request_path url = "/")
  /\ (PyStr.startswith url "http://" = true ->
      has_char "/" (strip_scheme url) = true ->
      url = ("http://" ++ request_host url ++ request_path url)%string)
  /\ (PyStr.startswith url "http://" = true ->
      has_char "/" (strip_scheme url) = false ->
      (url ++ "/")%string =
      ("http://" ++ request_host url ++ request_path url)%string).
Proof.
  unfold request_host, request_path, hostname_of, path_of.
  assert (Hu : PyStr.startswith url "http://" = true ->
               url = ("http://" ++ strip_scheme url)%string).
  { intros H. unfold strip_scheme. rewrite H. now apply startswith_slice. }
  destruct (split_slash_once_parts (strip_scheme url)) as [Hh Hp].
  destruct (snd (PyStr.split_slash_once (strip_scheme url))) as [p|];
    destruct Hp as [Hu' Hs]; repeat split; try assumption; try congruence.
  - unfold PyStr.startswith. now destruct p.
  - intros H _. rewrite (Hu H) at 1. now rewrite Hu' at 1.
  - intros H _. rewrite (Hu H) at 1. rewrite Hu' at 1.
    now rewrite <- !string_app_assoc.
Qed.





(** ** Decoding *)

Ltac utf8_tree :=
  repeat first
    [ match goal with
      | |- context [if ?c then _ else _] => destruct c eqn:?
      end
    | match goal with
      | |- context [match ?r with EmptyString => _ | String _ _ => _ end] =>
          is_var r; destruct r;
          rewrite ?app_String, ?app_empty_l; cbv beta match
      end ].

Lemma length_utf8_ignore (s : string) :
  String.length (PyStr.utf8_ignore s) <= String.length s.
Proof.
  assert (H : forall n s, String.length s <= n ->
                String.length (PyStr.utf8_ignore s) <= String.length s).
  { clear s. induction n as [|n IH]; intros s Hn.
    - destruct s; [cbn; lia | cbn in Hn; lia].
    - destruct s as [|b1 r1]; [cbn; lia|].
      cbn [PyStr.utf8_ignore]. utf8_tree; cbn [String.length] in *;
        repeat match goal with
        | |- context [PyStr.utf8_ignore ?r] =>
            lazymatch goal with
            | H : String.length (PyStr.utf8_ignore r) <= _ |- _ => fail
            | _ => assert (String.length (PyStr.utf8_ignore r) <= String.length r)
                     by (apply IH; cbn [String.length] in *; lia)
            end
        end; cbn [String.length] in *; lia. }
  now apply (H (String.length s)).
Qed.

Lemma utf8_ignore_ascii (b : ascii) (r : string) :
  PyStr.code b < 128 ->
  PyStr.utf8_ignore (String b r) = String b (PyStr.utf8_ignore r).
Proof.
  intros H. cbn [PyStr.utf8_ignore].
  apply Nat.ltb_lt in H. now rewrite H.
Qed.

Lemma ascii_starts_clean (b : ascii) (r : string) :
  PyStr.code b < 128 -> starts_clean (String b r).
Proof.
  intros H. unfold starts_clean, PyStr.is_cont.
  apply andb_false_iff. left. apply Nat.leb_gt. lia.
Qed.

(** Decoding goes through a place where no sequence can go on: the end
    of the text, or a byte that is no continuation byte. *)
Lemma utf8_ignore_app (l r : string) :
  starts_clean r ->
  PyStr.utf8_ignore (l ++ r)%string =
  (PyStr.utf8_ignore l ++ PyStr.utf8_ignore r)%string.
Proof.
  intros Hr. destruct r as [|b r'].
  { cbn [PyStr.utf8_ignore]. now rewrite !app_empty_r. }
  cbn in Hr.
  assert (H : forall n l, String.length l <= n ->
                PyStr.utf8_ignore (l ++ String b r')%string =
                (PyStr.utf8_ignore l ++ PyStr.utf8_ignore (String b r'))%string).
  { clear l. induction n as [|n IH]; intros l Hn.
    - destruct l; [reflexivity | cbn in Hn; lia].
    - destruct l as [|b1 r1]; [reflexivity|].
      rewrite app_String.
      remember (PyStr.utf8_ignore (String b r')) as ur eqn:Eur.
      cbn [PyStr.utf8_ignore].
      unfold PyStr.second_of_three, PyStr.second_of_four.
      utf8_tree; rewrite ?Hr; cbv beta match; cbn [andb];
        rewrite <- ?app_String, <- ?Eur;
        repeat match goal with
        | |- context [PyStr.utf8_ignore (?x ++ String b r')%string] =>
            rewrite (IH x) by (cbn [String.length] in *; lia)
        end;
        rewrite <- ?Eur; try reflexivity; try congruence;
        match goal with
        | H : (PyStr.is_cont b && _)%bool = true |- _ =>
            rewrite Hr in H; discriminate H
        end. }
  now apply (H (String.length l)).
Qed.

Lemma utf8_ignore_idempotent (s : string) :
  PyStr.utf8_ignore (PyStr.utf8_ignore s) = PyStr.utf8_ignore s.
Proof.
  assert (H : forall n s, String.length s <= n ->
                PyStr.utf8_ignore (PyStr.utf8_ignore s) = PyStr.utf8_ignore s).
  { clear s. induction n as [|n IH]; intros s Hn.
    - destruct s; [reflexivity | cbn in Hn; lia].
    - destruct s as [|b1 r1]; [reflexivity|].
      cbn [PyStr.utf8_ignore]. utf8_tree;
        try (apply IH; cbn [String.length] in *; lia);
        try reflexivity;
        cbn [PyStr.utf8_ignore];
        repeat match goal with
        | H : ?c = _ |- context [if ?c then _ else _] => rewrite H
        end;
        rewrite IH by (cbn [String.length] in *; lia); reflexivity. }
  now apply (H (String.length s)).
Qed.

(** ** Well-formed texts *)

Lemma well_formed_decoded (s : string) : well_formed (PyStr.utf8_ignore s).
Proof. apply utf8_ignore_idempotent. Qed.

Lemma well_formed_app (l r : string) :
  well_formed l -> well_formed r -> starts_clean r -> well_formed (l ++ r).
Proof.
  unfold well_formed. intros Hl Hr Hc.
  now rewrite (utf8_ignore_app _ _ Hc), Hl, Hr.
Qed.

Lemma well_formed_app_inv (l r : string) :
  well_formed (l ++ r) -> starts_clean r -> well_formed l /\ well_formed r.
Proof.
  unfold well_formed. intros H Hc. rewrite (utf8_ignore_app _ _ Hc) in H.
  apply string_app_inj in H; [assumption|].
  apply (f_equal String.length) in H. rewrite !string_length_app in H.
  pose proof (length_utf8_ignore l). pose proof (length_utf8_ignore r). lia.
Qed.

Lemma well_formed_ascii (b : ascii) (r : string) :
  PyStr.code b < 128 -> well_formed (String b r) <-> well_formed r.
Proof.
  intros H. unfold well_formed. rewrite (utf8_ignore_ascii _ _ H).
  split; [now intros [= ->] | now intros ->].
Qed.

(** A well-formed text starts with a character of one to four bytes,
    followed by a well-formed text. *)
Lemma well_formed_first (b1 : ascii) (r1 : string) :
  well_formed (String b1 r1) ->
  (PyStr.code b1 < 128 /\ well_formed r1)
  \/ (exists b2 r2,
        r1 = String b2 r2 /\ 194 <= PyStr.code b1 < 224
        /\ PyStr.is_cont b2 = true /\ well_formed r2)
  \/ (exists b2 b3 r3,
        r1 = String b2 (String b3 r3) /\ 224 <= PyStr.code b1 < 240
        /\ PyStr.second_of_three b1 b2 = true /\ PyStr.is_cont b3 = true
        /\ well_formed r3)
  \/ (exists b2 b3 b4 r4,
        r1 = String b2 (String b3 (String b4 r4))
        /\ 240 <= PyStr.code b1 < 245
        /\ PyStr.second_of_four b1 b2 = true /\ PyStr.is_cont b3 = true
        /\ PyStr.is_cont b4 = true /\ well_formed r4).
Proof.
  unfold well_formed. cbn [PyStr.utf8_ignore].
  utf8_tree; intros H;
    try discriminate H;
    try (exfalso;
         match type of H with
         | PyStr.utf8_ignore ?r = ?s =>
             pose proof (length_utf8_ignore r) as Hlen;
             rewrite H in Hlen; cbn [String.length] in Hlen; lia
         end);
    repeat match goal with
    | H : (_ <? _)%nat = true |- _ => apply Nat.ltb_lt in H
    | H : (_ <? _)%nat = false |- _ => apply Nat.ltb_ge in H
    end.
  - left. injection H as H. auto.
  - right; left. injection H as H. eauto 10.
  - right; right; left. injection H as H. exists a, a0, r1. auto 10.
  - right; right; right. injection H as H. exists a, a0, a1, r1. auto 10.
Qed.

(** The bytes of a character, put in front of a well-formed text. *)
Lemma second_of_three_cont (b1 b2 : ascii) :
  PyStr.second_of_three b1 b2 = true -> PyStr.is_cont b2 = true.
Proof. unfold PyStr.second_of_three. now intros [H _]%andb_true_iff. Qed.

Lemma second_of_four_cont (b1 b2 : ascii) :
  PyStr.second_of_four b1 b2 = true -> PyStr.is_cont b2 = true.
Proof. unfold PyStr.second_of_four. now intros [H _]%andb_true_iff. Qed.

Lemma well_formed_starts_clean (s : string) : well_formed s -> starts_clean s.
Proof.
  destruct s as [|b r]; [easy|]. intros H.
  unfold starts_clean, PyStr.is_cont.
  destruct (well_formed_first _ _ H)
    as [[H1 _]|[(? & ? & _ & H1 & _)|[(? & ? & ? & _ & H1 & _)
       |(? & ? & ? & ? & _ & H1 & _)]]];
    destruct (Nat.leb_spec 128 (PyStr.code b));
    destruct (Nat.ltb_spec (PyStr.code b) 192); try reflexivity; lia.
Qed.

(** ** Bytes and text *)

Lemma encode_app (a b : string) :
  encode (a ++ b)%string = encode a ++ encode b.
Proof.
  unfold encode, list_byte_of_string.
  induction a as [|c a IH]; [reflexivity|].
  rewrite app_String. cbn. now rewrite IH.
Qed.

Lemma length_encode (a : string) : length (encode a) = String.length a.
Proof.
  unfold encode, list_byte_of_string.
  induction a as [|c a IH]; [reflexivity|]. cbn. now rewrite IH.
Qed.

Lemma decode_encode (a : string) : decode (encode a) = PyStr.utf8_ignore a.
Proof. unfold decode, encode. now rewrite string_of_list_byte_of_string. Qed.

Lemma decode_encode_well_formed (a : string) :
  well_formed a -> decode (encode a) = a.
Proof. intros H. now rewrite decode_encode. Qed.

Lemma encode_string_of_bytes (l : list byte) :
  encode (string_of_list_byte l) = l.
Proof. apply list_byte_of_string_of_list_byte. Qed.

(** ** Only the request line is read *)

Lemma utf8_ignore_line (line rest : string) :
  PyStr.utf8_ignore (line ++ PyStr.CRLF ++ rest)%string =
  (PyStr.utf8_ignore line ++ PyStr.CRLF ++ PyStr.utf8_ignore rest)%string.
Proof.
  change (PyStr.CRLF ++ rest)%string
    with (String PyStr.CR (String PyStr.LF rest)).
  rewrite utf8_ignore_app by (apply ascii_starts_clean; vm_compute; lia).
  now rewrite !utf8_ignore_ascii by (vm_compute; lia).
Qed.

Lemma hd_cons_piece (c : ascii) (l : list string) :
  hd EmptyString (PyStr.cons_piece c l) = String c (hd EmptyString l).
Proof. now destruct l. Qed.

(** The first piece of a text with a line end does not depend on what
    follows that line end. *)
Lemma split_crlf_head (x y : string) :
  hd EmptyString (PyStr.split_crlf (x ++ PyStr.CRLF ++ y)%string) =
  hd EmptyString (PyStr.split_crlf (x ++ PyStr.CRLF)%string).
Proof.
  induction x as [|c x IH].
  - reflexivity.
  - rewrite !app_String. destruct x as [|c' x].
    + change (("" ++ PyStr.CRLF ++ y)%string)
        with (String PyStr.CR (String PyStr.LF y)).
      change (("" ++ PyStr.CRLF)%string)
        with (String PyStr.CR (String PyStr.LF "")).
      cbn [PyStr.split_crlf].
      replace (Ascii.eqb PyStr.CR PyStr.LF) with false by reflexivity.
      rewrite andb_false_r.
      replace (Ascii.eqb PyStr.CR PyStr.CR) with true by reflexivity.
      replace (Ascii.eqb PyStr.LF PyStr.LF) with true by reflexivity.
      reflexivity.
    + rewrite !app_String in *.
      cbn [PyStr.split_crlf].
      destruct (Ascii.eqb c PyStr.CR && Ascii.eqb c' PyStr.LF)%bool;
        [reflexivity|].
      rewrite !hd_cons_piece. f_equal.
      exact IH.
Qed.

Lemma check_request_reads_head (request_data : list byte) :
  check_request request_data =
  match request_data with
  | [] => inl EmptyRequestData
  | _ :: _ =>
      match hd EmptyString (PyStr.split_crlf (decode request_data)) with
      | EmptyString => inl NoRequestLine
      | line0 =>
          match PyStr.split line0 with
          | m :: url :: _ =>
              if negb (String.eqb (PyStr.upper m) "GET")
              then inl (OnlyGetSupported m)
              else if PyStr.startswith url "https://"
                   then inl HttpsNotSupported
                   else if PyStr.startswith url "/"
                        then inl RelativeURL
                        else inr url
          | _ => inl (InvalidRequestLine (PyStr.split line0))
          end
      end
  end.
Proof.
  unfold check_request. destruct request_data as [|b bs]; [reflexivity|].
  cbv zeta.
  destruct (PyStr.split_crlf (decode (b :: bs))) as [|[|c l] ls]; reflexivity.
Qed.

Lemma check_request_first_line (line rest : string) :
  check_request (encode (line ++ PyStr.CRLF ++ rest)%string) =
  check_request (encode (line ++ PyStr.CRLF)%string).
Proof.
  assert (Hne : forall t, exists b bs,
             encode (line ++ PyStr.CRLF ++ t)%string = b :: bs).
  { intros t. rewrite encode_app.
    destruct (encode line) as [|b bs]; cbn; eauto. }
  assert (Hcr : forall t,
             check_request (encode (line ++ PyStr.CRLF ++ t)%string) =
             check_request (encode (line ++ PyStr.CRLF ++ "")%string)).
  { intros t. rewrite !check_request_reads_head.
    destruct (Hne t) as (b & bs & E). destruct (Hne "") as (b' & bs' & E').
    rewrite E, E'. rewrite <- E, <- E'.
    rewrite !decode_encode, !utf8_ignore_line.
    rewrite (split_crlf_head _ (PyStr.utf8_ignore t)).
    reflexivity. }
  rewrite (Hcr rest).
  now rewrite app_empty_r.
Qed.

(** X11. The handler reads the first line of the request and nothing
    else: two requests with the same first line, which fits with its line
    end in the 4096 bytes of the read, have the same session, whatever
    header lines and body follow. *)
Theorem request_line_alone_is_read
    (net : network) (d : filesystem) (line rest1 rest2 : string) :
  PyStr.split_crlf line = [line] ->
  String.length line + 2 <= BUFSIZE ->
  session net d (encode (line ++ PyStr.CRLF ++ rest1)%string) =
  session net d (encode (line ++ PyStr.CRLF ++ rest2)%string).
Proof.
  intros _ Hlen.
  assert (Hc : forall rest,
             check_request
               (take BUFSIZE (encode (line ++ PyStr.CRLF ++ rest)%string)) =
             check_request (encode (line ++ PyStr.CRLF)%string)).
  { intros rest.
    assert (E : take BUFSIZE (encode (line ++ PyStr.CRLF ++ rest)%string) =
                encode (line ++ PyStr.CRLF ++
                        string_of_list_byte
                          (take (BUFSIZE - (String.length line + 2))
                                (encode rest)))%string).
    { assert (Hl : length (encode line ++ encode PyStr.CRLF) =
                   String.length line + 2)
        by (rewrite length_app, !length_encode; cbn; lia).
      rewrite !encode_app, encode_string_of_bytes.
      rewrite !(app_assoc (encode line)), take_app, Hl.
      now rewrite take_ge by lia. }
    rewrite E. apply check_request_first_line. }
  unfold session, after_read, lift, bind, try_except, finally.
  cbn [fst snd]. now rewrite !Hc.
Qed.

(** ** The accept loop *)























Lemma sessions_keep_entry accepted d k data :
  lookup_result d k = Returned (Some data) ->
  data <> [] ->
  lookup_result (fst (sessions accepted d)) k = Returned (Some data).
Proof.
  revert d. induction accepted as [|[net client_in] later IH]; intros d Hl Hne;
    [assumption|].
  cbn [sessions].
  pose proof (session_keeps_entry net d client_in k data Hl Hne) as H1.
  destruct (session net d client_in) as [d1 t1]. cbn [fst] in H1.
  specialize (IH d1 H1 Hne). now destruct (sessions later d1).
Qed.

(** X13. The first response wins for good: once a session has sent a
    response for a URL to the client, every request for that URL that
    the loop handles later, after any number of other connections, is
    answered from the cache with the same bytes and without a connection
    to an origin. *)
Theorem first_response_is_served_ever_after
    (net net' : network) (d d1 : filesystem) (client_in client_in' : list byte)
    (url : string) (t : list event)
    (between : list (network * list byte)) :
  check_request (take BUFSIZE client_in) = inr url ->
  check_request (take BUFSIZE client_in') = inr url ->
  session net d client_in = (d1, t) ->
  sent_to_client t <> [] ->
  session net' (fst (sessions between d1)) client_in' =
    (fst (sessions between d1), [SendClient (sent_to_client t); CloseClient]).
Proof.
  intros Hc Hc' Hs Hne.
  apply session_hit with url; [assumption| |assumption].
  apply sessions_keep_entry; [|assumption].
  now apply relayed_is_cached with net d client_in.
Qed.

(** ** White space *)

Lemma isspace_high (c : ascii) : 33 <= PyStr.code c -> PyStr.isspace c = false.
Proof.
  intros H. unfold PyStr.isspace. fold (PyStr.code c).
  replace (PyStr.code c <=? 13)%nat with false
    by (symmetry; apply Nat.leb_gt; lia).
  replace (PyStr.code c <=? 32)%nat with false
    by (symmetry; apply Nat.leb_gt; lia).
  now rewrite !andb_false_r.
Qed.

Lemma isspace2_lead (c1 c2 : ascii) :
  PyStr.code c1 <> 194 -> PyStr.isspace2 c1 c2 = false.
Proof.
  intros H. unfold PyStr.isspace2.
  now replace (PyStr.code c1 =? 194)%nat with false
    by (symmetry; apply Nat.eqb_neq; lia).
Qed.

Lemma isspace2_second (c1 c2 : ascii) :
  PyStr.code c2 < 128 -> PyStr.isspace2 c1 c2 = false.
Proof.
  intros H. unfold PyStr.isspace2.
  replace (PyStr.code c2 =? 133)%nat with false
    by (symmetry; apply Nat.eqb_neq; lia).
  replace (PyStr.code c2 =? 160)%nat with false
    by (symmetry; apply Nat.eqb_neq; lia).
  apply andb_false_r.
Qed.

Lemma isspace3_lead (c1 c2 c3 : ascii) :
  PyStr.code c1 < 225 \/ 227 < PyStr.code c1 ->
  PyStr.isspace3 c1 c2 c3 = false.
Proof.
  intros H. unfold PyStr.isspace3.
  replace (PyStr.code c1 =? 225)%nat with false
    by (symmetry; apply Nat.eqb_neq; lia).
  replace (PyStr.code c1 =? 226)%nat with false
    by (symmetry; apply Nat.eqb_neq; lia).
  now replace (PyStr.code c1 =? 227)%nat with false
    by (symmetry; apply Nat.eqb_neq; lia).
Qed.

Lemma isspace3_second (c1 c2 c3 : ascii) :
  PyStr.code c2 < 128 -> PyStr.isspace3 c1 c2 c3 = false.
Proof.
  intros H. unfold PyStr.isspace3.
  replace (PyStr.code c2 =? 154)%nat with false
    by (symmetry; apply Nat.eqb_neq; lia).
  replace (PyStr.code c2 =? 128)%nat with false
    by (symmetry; apply Nat.eqb_neq; lia).
  replace (PyStr.code c2 =? 129)%nat with false
    by (symmetry; apply Nat.eqb_neq; lia).
  now rewrite !andb_false_r.
Qed.

Lemma isspace3_third (c1 c2 c3 : ascii) :
  PyStr.code c3 < 128 -> PyStr.isspace3 c1 c2 c3 = false.
Proof.
  intros H. unfold PyStr.isspace3.
  replace (PyStr.code c3 =? 128)%nat with false
    by (symmetry; apply Nat.eqb_neq; lia).
  replace (128 <=? PyStr.code c3)%nat with false
    by (symmetry; apply Nat.leb_gt; lia).
  replace (PyStr.code c3 =? 168)%nat with false
    by (symmetry; apply Nat.eqb_neq; lia).
  replace (PyStr.code c3 =? 169)%nat with false
    by (symmetry; apply Nat.eqb_neq; lia).
  replace (PyStr.code c3 =? 175)%nat with false
    by (symmetry; apply Nat.eqb_neq; lia).
  replace (PyStr.code c3 =? 159)%nat with false
    by (symmetry; apply Nat.eqb_neq; lia).
  now rewrite !andb_false_r.
Qed.

Lemma is_cont_range (c : ascii) :
  PyStr.is_cont c = true <-> 128 <= PyStr.code c < 192.
Proof.
  unfold PyStr.is_cont. rewrite andb_true_iff, Nat.leb_le, Nat.ltb_lt.
  reflexivity.
Qed.

(** The width of the white space at the start of a text, by the kind of
    its first byte. *)
Lemma space_width_ascii (c : ascii) (r : string) :
  PyStr.code c < 128 ->
  PyStr.space_width (String c r) = if PyStr.isspace c then 1 else 0.
Proof.
  intros H. unfold PyStr.space_width.
  destruct (PyStr.isspace c); [reflexivity|].
  destruct r as [|c2 [|c3 r]]; [reflexivity| |];
    rewrite isspace2_lead by lia; [reflexivity|].
  now rewrite isspace3_lead by lia.
Qed.

Lemma space_width_cont (c : ascii) (r : string) :
  PyStr.is_cont c = true -> PyStr.space_width (String c r) = 0.
Proof.
  intros H%is_cont_range. unfold PyStr.space_width.
  rewrite isspace_high by lia.
  destruct r as [|c2 [|c3 r]]; [reflexivity| |];
    rewrite isspace2_lead by lia; [reflexivity|].
  now rewrite isspace3_lead by lia.
Qed.

Lemma space_width_two (c1 c2 : ascii) (r : string) :
  194 <= PyStr.code c1 < 224 ->
  PyStr.space_width (String c1 (String c2 r)) =
  if PyStr.isspace2 c1 c2 then 2 else 0.
Proof.
  intros H. unfold PyStr.space_width.
  rewrite isspace_high by lia.
  destruct (PyStr.isspace2 c1 c2); [reflexivity|].
  destruct r as [|c3 r]; [reflexivity|].
  now rewrite isspace3_lead by lia.
Qed.

Lemma space_width_three (c1 c2 c3 : ascii) (r : string) :
  224 <= PyStr.code c1 ->
  PyStr.space_width (String c1 (String c2 (String c3 r))) =
  if PyStr.isspace3 c1 c2 c3 then 3 else 0.
Proof.
  intros H. unfold PyStr.space_width.
  rewrite isspace_high by lia.
  now rewrite isspace2_lead by lia.
Qed.

Lemma space_width_four (c1 c2 c3 : ascii) (r : string) :
  240 <= PyStr.code c1 ->
  PyStr.space_width (String c1 (String c2 (String c3 r))) = 0.
Proof.
  intros H. rewrite space_width_three by lia.
  now rewrite isspace3_lead by lia.
Qed.

(** No white space starts at [c] in a text: none does with less of the
    text after [c], and none does when an ASCII character is put after
    that text. *)
Lemma space_width_prefix (c : ascii) (a b : string) :
  PyStr.space_width (String c (a ++ b)) = 0 ->
  PyStr.space_width (String c a) = 0.
Proof.
  unfold PyStr.space_width.
  destruct (PyStr.isspace c); [discriminate|].
  destruct a as [|c2 a]; [reflexivity|]. rewrite app_String.
  destruct (PyStr.isspace2 c c2); [discriminate|].
  destruct a as [|c3 a]; [reflexivity|]. now rewrite app_String.
Qed.

Lemma space_width_before_ascii (c a : ascii) (w t : string) :
  PyStr.space_width (String c w) = 0 ->
  PyStr.code a < 128 ->
  PyStr.space_width (String c (w ++ String a t)) = 0.
Proof.
  unfold PyStr.space_width. intros H Ha.
  destruct (PyStr.isspace c); [discriminate|].
  destruct w as [|c2 w].
  - rewrite app_empty_l, isspace2_second by assumption.
    destruct t; [reflexivity|]. now rewrite isspace3_second.
  - rewrite app_String.
    destruct (PyStr.isspace2 c c2); [discriminate|].
    destruct w as [|c3 w].
    + now rewrite app_empty_l, isspace3_third.
    + now rewrite app_String.
Qed.

Lemma has_space_cons (c : ascii) (r : string) :
  has_space (String c r) = false <->
  PyStr.space_width (String c r) = 0 /\ has_space r = false.
Proof.
  cbn [has_space]. rewrite orb_false_iff, Nat.ltb_ge. intuition lia.
Qed.

Lemma has_space_suffix (a b : string) :
  has_space (a ++ b) = false -> has_space b = false.
Proof.
  induction a as [|c a IH]; [now rewrite app_empty_l|].
  rewrite app_String. intros [_ H]%has_space_cons. auto.
Qed.

Lemma has_space_prefix (a b : string) :
  has_space (a ++ b) = false -> has_space a = false.
Proof.
  induction a as [|c a IH]; [reflexivity|].
  rewrite app_String. intros [Hc H]%has_space_cons.
  apply has_space_cons. split; [|auto].
  now apply (space_width_prefix c a b).
Qed.

Lemma has_char_app (x : ascii) (a b : string) :
  has_char x (a ++ b)%string = (has_char x a || has_char x b)%bool.
Proof.
  induction a as [|c a IH]; [reflexivity|].
  rewrite app_String. cbn [has_char]. now rewrite IH, orb_assoc.
Qed.

Lemma no_space_no_cr (s : string) :
  has_space s = false -> has_char PyStr.CR s = false.
Proof.
  induction s as [|c s IH]; [reflexivity|].
  intros [Hc Hs]%has_space_cons. cbn [has_char].
  rewrite (IH Hs), orb_false_r.
  destruct (Ascii.eqb c PyStr.CR) eqn:E; [|reflexivity].
  apply Ascii.eqb_eq in E as ->. discriminate Hc.
Qed.

(** ** Words *)

Lemma words_ascii (c : ascii) (r : string) :
  PyStr.code c < 128 ->
  PyStr.words (String c r) =
  if PyStr.isspace c then PyStr.sep (PyStr.words r)
  else PyStr.keep c (PyStr.words r).
Proof.
  intros H. unfold PyStr.words. cbn [PyStr.words_from].
  rewrite space_width_ascii by assumption.
  now destruct (PyStr.isspace c).
Qed.

Lemma words_two (c1 c2 : ascii) (r : string) :
  194 <= PyStr.code c1 < 224 ->
  PyStr.is_cont c2 = true ->
  PyStr.words (String c1 (String c2 r)) =
  if PyStr.isspace2 c1 c2 then PyStr.sep (PyStr.words r)
  else PyStr.keep c1 (PyStr.keep c2 (PyStr.words r)).
Proof.
  intros H1 H2. unfold PyStr.words. cbn [PyStr.words_from].
  rewrite space_width_two by assumption.
  destruct (PyStr.isspace2 c1 c2); [reflexivity|].
  now rewrite space_width_cont.
Qed.

Lemma words_three (c1 c2 c3 : ascii) (r : string) :
  224 <= PyStr.code c1 ->
  PyStr.is_cont c2 = true ->
  PyStr.is_cont c3 = true ->
  PyStr.words (String c1 (String c2 (String c3 r))) =
  if PyStr.isspace3 c1 c2 c3 then PyStr.sep (PyStr.words r)
  else PyStr.keep c1 (PyStr.keep c2 (PyStr.keep c3 (PyStr.words r))).
Proof.
  intros H1 H2 H3. unfold PyStr.words. cbn [PyStr.words_from].
  rewrite space_width_three by assumption.
  destruct (PyStr.isspace3 c1 c2 c3); [reflexivity|].
  now rewrite !space_width_cont.
Qed.

Lemma words_four (c1 c2 c3 c4 : ascii) (r : string) :
  240 <= PyStr.code c1 ->
  PyStr.is_cont c2 = true ->
  PyStr.is_cont c3 = true ->
  PyStr.is_cont c4 = true ->
  PyStr.words (String c1 (String c2 (String c3 (String c4 r)))) =
  PyStr.keep c1 (PyStr.keep c2 (PyStr.keep c3 (PyStr.keep c4 (PyStr.words r)))).
Proof.
  intros H1 H2 H3 H4. unfold PyStr.words. cbn [PyStr.words_from].
  rewrite space_width_four by assumption.
  now rewrite !space_width_cont.
Qed.

(** The words of a text have no white space and are not empty; the run
    that is being read is a prefix of the text. *)
Lemma words_from_no_space (s : string) (k : nat) :
  has_space (fst (PyStr.words_from k s)) = false
  /\ Forall (fun w => has_space w = false /\ w <> EmptyString)
            (snd (PyStr.words_from k s))
  /\ (k = 0 -> exists t, s = (fst (PyStr.words_from 0 s) ++ t)%string).
Proof.
  revert k. induction s as [|c s IH]; intros k.
  - cbn. repeat split; [constructor|]. intros _. now exists EmptyString.
  - destruct k as [|k]; cbn [PyStr.words_from].
    + destruct (PyStr.space_width (String c s)) as [|n] eqn:E.
      * destruct (IH 0) as (Hw & Hws & Hp).
        destruct (Hp eq_refl) as [t Ht].
        unfold PyStr.keep. cbn [fst snd]. repeat split.
        -- apply has_space_cons. split; [|assumption].
           apply (space_width_prefix c _ t). now rewrite <- Ht.
        -- assumption.
        -- intros _. exists t. rewrite app_String. now f_equal.
      * destruct (IH n) as (Hw & Hws & _).
        unfold PyStr.sep. cbn [fst snd]. repeat split.
        -- destruct (fst (PyStr.words_from n s)); [assumption|].
           constructor; [split; [assumption | discriminate] | assumption].
        -- intros _. now exists (String c s).
    + destruct (IH k) as (Hw & Hws & _). repeat split; try assumption.
      intros [=].
Qed.

Lemma split_no_space (s : string) :
  Forall (fun w => has_space w = false /\ w <> EmptyString) (PyStr.split s).
Proof.
  unfold PyStr.split, PyStr.words.
  destruct (words_from_no_space s 0) as (Hw & Hws & _).
  destruct (PyStr.words_from 0 s) as [w ws]. cbn [fst snd] in *.
  destruct w; [assumption|].
  constructor; [split; [assumption | discriminate] | assumption].
Qed.

(** A text without white space in front of an ASCII character is read as
    one block. *)
Lemma words_app_ascii (w : string) (a : ascii) (t : string) :
  has_space w = false ->
  PyStr.code a < 128 ->
  PyStr.words (w ++ String a t)%string =
  ((w ++ fst (PyStr.words (String a t)))%string,
   snd (PyStr.words (String a t))).
Proof.
  intros Hw Ha. induction w as [|c w IH].
  - rewrite !app_empty_l. now destruct (PyStr.words (String a t)).
  - apply has_space_cons in Hw as [Hc Hw].
    rewrite !app_String. unfold PyStr.words in *. cbn [PyStr.words_from].
    rewrite (space_width_before_ascii c a w t Hc Ha).
    rewrite (IH Hw). reflexivity.
Qed.

(** The words of a well-formed text are well formed. *)
Lemma well_formed_two (b1 b2 : ascii) (r : string) :
  194 <= PyStr.code b1 < 224 -> PyStr.is_cont b2 = true ->
  well_formed r -> well_formed (String b1 (String b2 r)).
Proof.
  unfold well_formed. intros H1 H2 Hr. cbn [PyStr.utf8_ignore].
  replace (PyStr.code b1 <? 128)%nat with false
    by (symmetry; apply Nat.ltb_ge; lia).
  replace (PyStr.code b1 <? 194)%nat with false
    by (symmetry; apply Nat.ltb_ge; lia).
  replace (PyStr.code b1 <? 224)%nat with true
    by (symmetry; apply Nat.ltb_lt; lia).
  now rewrite H2, Hr.
Qed.

Lemma well_formed_three (b1 b2 b3 : ascii) (r : string) :
  224 <= PyStr.code b1 < 240 -> PyStr.second_of_three b1 b2 = true ->
  PyStr.is_cont b3 = true ->
  well_formed r -> well_formed (String b1 (String b2 (String b3 r))).
Proof.
  unfold well_formed. intros H1 H2 H3 Hr. cbn [PyStr.utf8_ignore].
  replace (PyStr.code b1 <? 128)%nat with false
    by (symmetry; apply Nat.ltb_ge; lia).
  replace (PyStr.code b1 <? 194)%nat with false
    by (symmetry; apply Nat.ltb_ge; lia).
  replace (PyStr.code b1 <? 224)%nat with false
    by (symmetry; apply Nat.ltb_ge; lia).
  replace (PyStr.code b1 <? 240)%nat with true
    by (symmetry; apply Nat.ltb_lt; lia).
  now rewrite H2, H3, Hr.
Qed.

Lemma well_formed_four (b1 b2 b3 b4 : ascii) (r : string) :
  240 <= PyStr.code b1 < 245 -> PyStr.second_of_four b1 b2 = true ->
  PyStr.is_cont b3 = true -> PyStr.is_cont b4 = true ->
  well_formed r ->
  well_formed (String b1 (String b2 (String b3 (String b4 r)))).
Proof.
  unfold well_formed. intros H1 H2 H3 H4 Hr. cbn [PyStr.utf8_ignore].
  replace (PyStr.code b1 <? 128)%nat with false
    by (symmetry; apply Nat.ltb_ge; lia).
  replace (PyStr.code b1 <? 194)%nat with false
    by (symmetry; apply Nat.ltb_ge; lia).
  replace (PyStr.code b1 <? 224)%nat with false
    by (symmetry; apply Nat.ltb_ge; lia).
  replace (PyStr.code b1 <? 240)%nat with false
    by (symmetry; apply Nat.ltb_ge; lia).
  replace (PyStr.code b1 <? 245)%nat with true
    by (symmetry; apply Nat.ltb_lt; lia).
  now rewrite H2, H3, H4, Hr.
Qed.

Lemma sep_well_formed (p : string * list string) :
  well_formed (fst p) -> Forall well_formed (snd p) ->
  well_formed (fst (PyStr.sep p)) /\ Forall well_formed (snd (PyStr.sep p)).
Proof.
  intros Hw Hws. unfold PyStr.sep. cbn [fst snd]. split; [reflexivity|].
  destruct (fst p); [assumption | now constructor].
Qed.

Lemma words_well_formed (s : string) :
  well_formed s ->
  well_formed (fst (PyStr.words s)) /\ Forall well_formed (snd (PyStr.words s)).
Proof.
  assert (H : forall n s, String.length s <= n -> well_formed s ->
                well_formed (fst (PyStr.words s))
                /\ Forall well_formed (snd (PyStr.words s))).
  { clear s. induction n as [|n IH]; intros s Hn Hs.
    - destruct s; [now cbn | cbn in Hn; lia].
    - destruct s as [|b1 r1]; [now cbn|].
      destruct (well_formed_first _ _ Hs)
        as [[H1 Hr]|[(b2 & r2 & -> & H1 & H2 & Hr)
           |[(b2 & b3 & r3 & -> & H1 & H2 & H3 & Hr)
           |(b2 & b3 & b4 & r4 & -> & H1 & H2 & H3 & H4 & Hr)]]];
        cbn [String.length] in Hn.
      + destruct (IH r1 ltac:(lia) Hr) as [Hw Hws].
        rewrite words_ascii by assumption.
        destruct (PyStr.isspace b1); [now apply sep_well_formed|].
        unfold PyStr.keep. cbn [fst snd]. split; [|assumption].
        now apply well_formed_ascii.
      + destruct (IH r2 ltac:(lia) Hr) as [Hw Hws].
        rewrite words_two by assumption.
        destruct (PyStr.isspace2 b1 b2); [now apply sep_well_formed|].
        unfold PyStr.keep. cbn [fst snd]. split; [|assumption].
        now apply well_formed_two.
      + destruct (IH r3 ltac:(lia) Hr) as [Hw Hws].
        rewrite words_three
          by first [assumption | lia
                   | apply (second_of_three_cont b1); assumption].
        destruct (PyStr.isspace3 b1 b2 b3); [now apply sep_well_formed|].
        unfold PyStr.keep. cbn [fst snd]. split; [|assumption].
        now apply well_formed_three.
      + destruct (IH r4 ltac:(lia) Hr) as [Hw Hws].
        rewrite words_four
          by first [assumption | lia
                   | apply (second_of_four_cont b1); assumption].
        unfold PyStr.keep. cbn [fst snd]. split; [|assumption].
        now apply well_formed_four. }
  now apply (H (String.length s)).
Qed.

Lemma split_well_formed (s : string) :
  well_formed s -> Forall well_formed (PyStr.split s).
Proof.
  intros Hs. unfold PyStr.split.
  destruct (words_well_formed s Hs) as [Hw Hws].
  destruct (PyStr.words s) as [w ws]. cbn [fst snd] in *.
  destruct w; [assumption | now constructor].
Qed.

(** ** The request sent to the origin *)

Lemma split_crlf_cons (c : ascii) (s : string) :
  PyStr.split_crlf (String c s) = [String c s] ->
  PyStr.split_crlf s = [s]
  /\ forall t, PyStr.split_crlf (String c (s ++ PyStr.CRLF ++ t)%string) =
               PyStr.cons_piece c (PyStr.split_crlf (s ++ PyStr.CRLF ++ t)%string).
Proof.
  destruct s as [|c' s].
  - intros _. split; [reflexivity|]. intros t.
    change (("" ++ PyStr.CRLF ++ t)%string)
      with (String PyStr.CR (String PyStr.LF t)).
    cbn [PyStr.split_crlf].
    destruct (Ascii.eqb c PyStr.CR); reflexivity.
  - cbn [PyStr.split_crlf].
    destruct (Ascii.eqb c PyStr.CR && Ascii.eqb c' PyStr.LF)%bool eqn:E;
      [discriminate|].
    intros H. split.
    + destruct (match s with
                | EmptyString => [String c' EmptyString]
                | String c'0 rest' =>
                    if (Ascii.eqb c' PyStr.CR && Ascii.eqb c'0 PyStr.LF)%bool
                    then EmptyString :: PyStr.split_crlf rest'
                    else PyStr.cons_piece c' (PyStr.split_crlf s)
                end) as [|p ps] eqn:Ep; cbn in H; congruence.
    + intros t. rewrite app_String. cbn [PyStr.split_crlf]. now rewrite E.
Qed.

Lemma split_crlf_first_line (line rest : string) :
  PyStr.split_crlf line = [line] ->
  PyStr.split_crlf (line ++ PyStr.CRLF ++ rest)%string =
  line :: PyStr.split_crlf rest.
Proof.
  induction line as [|c line IH]; intros H.
  - reflexivity.
  - destruct (split_crlf_cons c line H) as [Hl Hc].
    rewrite app_String, Hc, (IH Hl). reflexivity.
Qed.

Lemma split_crlf_no_cr (s : string) :
  has_char PyStr.CR s = false -> PyStr.split_crlf s = [s].
Proof.
  induction s as [|c s IH]; [reflexivity|]. cbn [has_char].
  intros H. apply orb_false_iff in H as [Hc Hs].
  cbn [PyStr.split_crlf]. destruct s as [|c' s]; [reflexivity|].
  now rewrite Hc, (IH Hs).
Qed.

Lemma split_crlf_step (c c' : ascii) (s : string) :
  PyStr.split_crlf (String c (String c' s)) =
  if (Ascii.eqb c PyStr.CR && Ascii.eqb c' PyStr.LF)%bool
  then EmptyString :: PyStr.split_crlf s
  else PyStr.cons_piece c (PyStr.split_crlf (String c' s)).
Proof. reflexivity. Qed.

(** The first piece of a text is the whole text, or what stands before
    a line end. *)
Lemma split_crlf_head_parts (s : string) :
  s = hd EmptyString (PyStr.split_crlf s)
  \/ exists rest,
       s = (hd EmptyString (PyStr.split_crlf s) ++ PyStr.CRLF ++ rest)%string.
Proof.
  induction s as [|c s IH]; [now left|].
  destruct s as [|c' s]; [now left|].
  rewrite split_crlf_step.
  destruct (Ascii.eqb c PyStr.CR && Ascii.eqb c' PyStr.LF)%bool eqn:E.
  - apply andb_true_iff in E as [->%Ascii.eqb_eq ->%Ascii.eqb_eq].
    right. now exists s.
  - rewrite hd_cons_piece.
    destruct IH as [IH | [rest IH]].
    + left. now rewrite <- IH.
    + right. exists rest. rewrite app_String. now rewrite <- IH.
Qed.

Lemma first_line_well_formed (request_data : list byte) :
  well_formed (first_line request_data).
Proof.
  unfold first_line.
  pose proof (well_formed_decoded (string_of_list_byte request_data)) as H.
  fold (decode request_data) in H.
  destruct (split_crlf_head_parts (decode request_data)) as [E | [rest E]].
  - now rewrite <- E.
  - rewrite E in H. apply well_formed_app_inv in H; [apply H|].
    apply ascii_starts_clean. vm_compute. lia.
Qed.

Lemma accepted_url_clean (request_data : list byte) (url : string) :
  check_request request_data = inr url ->
  has_space url = false /\ well_formed url.
Proof.
  intros H. destruct (check_request_accepts _ _ H) as (m & rest & Ht & _).
  pose proof (split_no_space (first_line request_data)) as Hf.
  pose proof (split_well_formed _ (first_line_well_formed request_data)) as Hv.
  fold (tokens request_data) in Hf, Hv. rewrite Ht in Hf, Hv.
  inversion Hf as [|? ? _ Hf']; subst. inversion Hf' as [|? ? [Hs _] _]; subst.
  inversion Hv as [|? ? _ Hv']; subst. inversion Hv' as [|? ? Hu _]; subst.
  auto.
Qed.

Lemma strip_scheme_clean (url : string) :
  has_space url = false -> well_formed url ->
  has_space (strip_scheme url) = false /\ well_formed (strip_scheme url).
Proof.
  intros Hs Hv. unfold strip_scheme.
  destruct (PyStr.startswith url "http://") eqn:E; [|auto].
  apply startswith_slice in E.
  set (u := PyStr.slice_from (String.length "http://") url) in *.
  clearbody u. subst url. split.
  - now apply has_space_suffix in Hs.
  - change ("http://" ++ u)%string
      with (String "h" (String "t" (String "t" (String "p" (String ":"
              (String "/" (String "/" u))))))) in Hv.
    repeat (apply well_formed_ascii in Hv; [|vm_compute; lia]).
    exact Hv.
Qed.

Lemma request_path_starts_with_slash (url : string) :
  exists q, request_path url = String "/" q.
Proof.
  unfold request_path, path_of.
  destruct (snd (PyStr.split_slash_once (strip_scheme url))) as [p|]; eauto.
Qed.

Lemma host_and_path_clean (url : string) :
  has_space url = false -> well_formed url ->
  (has_space (request_host url) = false /\ well_formed (request_host url))
  /\ (has_space (request_path url) = false /\ well_formed (request_path url)).
Proof.
  intros Hs Hv. destruct (strip_scheme_clean url Hs Hv) as [Hs' Hv'].
  unfold request_host, request_path, hostname_of, path_of.
  destruct (split_slash_once_parts (strip_scheme url)) as [_ Hp].
  destruct (snd (PyStr.split_slash_once (strip_scheme url))) as [p|];
    destruct Hp as [Hu _].
  - rewrite Hu in Hs', Hv'.
    apply well_formed_app_inv in Hv' as [Hh Hq];
      [|apply ascii_starts_clean; vm_compute; lia].
    repeat split; try assumption.
    + now apply has_space_prefix in Hs'.
    + now apply has_space_suffix in Hs'.
  - rewrite <- Hu. repeat split; assumption.
Qed.

Lemma starts_clean_app (a b : string) :
  well_formed a -> starts_clean b -> starts_clean (a ++ b)%string.
Proof.
  intros Ha Hb. destruct a as [|c a]; [now rewrite app_empty_l|].
  apply well_formed_starts_clean in Ha. now rewrite app_String.
Qed.

Lemma forward_msg_well_formed (hostname path : string) :
  well_formed hostname -> well_formed path ->
  well_formed (forward_msg hostname path).
Proof.
  intros Hh Hp. unfold forward_msg.
  apply well_formed_app; [reflexivity| |].
  - apply well_formed_app; [assumption| |reflexivity].
    apply well_formed_app; [reflexivity| |reflexivity].
    apply well_formed_app; [reflexivity| |reflexivity].
    apply well_formed_app; [reflexivity| |].
    + apply well_formed_app; [assumption|reflexivity|reflexivity].
    + now apply starts_clean_app.
  - now apply starts_clean_app.
Qed.

Lemma request_line_tokens (path : string) :
  has_space path = false ->
  path <> EmptyString ->
  PyStr.split ("GET " ++ path ++ " HTTP/1.0")%string =
  ["GET"; path; "HTTP/1.0"].
Proof.
  intros Hs Hne. unfold PyStr.split.
  change ("GET " ++ path ++ " HTTP/1.0")%string
    with ("GET" ++ String " " (path ++ String " " "HTTP/1.0"))%string.
  rewrite (words_app_ascii "GET" " ") by (vm_compute; first [reflexivity | lia]).
  rewrite (words_ascii " ") by (vm_compute; lia).
  replace (PyStr.isspace " ") with true by reflexivity.
  rewrite (words_app_ascii path " ") by first [assumption | vm_compute; lia].
  replace (PyStr.words (String " " "HTTP/1.0"))
    with (EmptyString, ["HTTP/1.0"]) by reflexivity.
  unfold PyStr.sep. cbn [fst snd]. rewrite !app_empty_r.
  destruct path; [congruence | reflexivity].
Qed.

Lemma forward_msg_lines (hostname path : string) :
  has_space hostname = false ->
  has_space path = false ->
  PyStr.split_crlf (forward_msg hostname path) =
  [("GET " ++ path ++ " HTTP/1.0")%string; ("Host: " ++ hostname)%string;
   "User-Agent: CSE310-Proxy"; "Accept: */*"; "Accept-Encoding: identity";
   "Connection: close"; EmptyString; EmptyString].
Proof.
  intros Hh Hp. unfold forward_msg.
  assert (H0 : PyStr.split_crlf ("GET " ++ path ++ " HTTP/1.0")%string =
               [("GET " ++ path ++ " HTTP/1.0")%string]).
  { apply split_crlf_no_cr. rewrite !has_char_app, (no_space_no_cr _ Hp).
    reflexivity. }
  assert (H1 : PyStr.split_crlf ("Host: " ++ hostname)%string =
               [("Host: " ++ hostname)%string]).
  { apply split_crlf_no_cr. rewrite !has_char_app, (no_space_no_cr _ Hh).
    reflexivity. }
  assert (E : ("GET " ++ path ++ " HTTP/1.0" ++ PyStr.CRLF ++
               "Host: " ++ hostname ++ PyStr.CRLF ++
               "User-Agent: CSE310-Proxy" ++ PyStr.CRLF ++
               "Accept: */*" ++ PyStr.CRLF ++
               "Accept-Encoding: identity" ++ PyStr.CRLF ++
               "Connection: close" ++ PyStr.CRLF ++ PyStr.CRLF)%string =
              (("GET " ++ path ++ " HTTP/1.0") ++ PyStr.CRLF ++
               ("Host: " ++ hostname) ++ PyStr.CRLF ++
               "User-Agent: CSE310-Proxy" ++ PyStr.CRLF ++
               "Accept: */*" ++ PyStr.CRLF ++
               "Accept-Encoding: identity" ++ PyStr.CRLF ++
               "Connection: close" ++ PyStr.CRLF ++ PyStr.CRLF)%string).
  { now rewrite !string_app_assoc. }
  rewrite E, (split_crlf_first_line _ _ H0), (split_crlf_first_line _ _ H1).
  reflexivity.
Qed.

(** X14. The request sent to the origin has the lines the code writes and
    no other, whatever the URL of the client: the URL token has no white
    space, so neither host nor path can add a line. Read again by the
    checks of the handler, its first line has the tokens [GET], the path
    and [HTTP/1.0], and is refused as a relative URL: this proxy cannot be
    the origin of another instance of itself. *)
Theorem forwarded_request_is_well_formed
    (request_data : list byte) (url : string) :
  check_request request_data = inr url ->
  PyStr.split_crlf (decode (forwarded url)) =
    [("GET " ++ request_path url ++ " HTTP/1.0")%string;
     ("Host: " ++ request_host url)%string;
     "User-Agent: CSE310-Proxy"; "Accept: */*"; "Accept-Encoding: identity";
     "Connection: close"; EmptyString; EmptyString]
  /\ tokens (forwarded url) = ["GET"; request_path url; "HTTP/1.0"]
  /\ check_request (forwarded url) = inl RelativeURL.
Proof.
  intros H. destruct (accepted_url_clean _ _ H) as [Hs Hv].
  destruct (host_and_path_clean url Hs Hv) as [[Hh Hhv] [Hp Hpv]].
  destruct (request_path_starts_with_slash url) as [q Hq].
  assert (Hl := forward_msg_lines _ _ Hh Hp).
  assert (Ht : PyStr.split ("GET " ++ request_path url ++ " HTTP/1.0")%string =
               ["GET"; request_path url; "HTTP/1.0"]).
  { apply request_line_tokens; [assumption | congruence]. }
  assert (Hd : decode (encode (forward_msg (request_host url) (request_path url)))
               = forward_msg (request_host url) (request_path url)).
  { apply decode_encode_well_formed. now apply forward_msg_well_formed. }
  unfold forwarded. rewrite Hd. split; [assumption|].
  split.
  - unfold tokens, first_line. now rewrite Hd, Hl.
  - unfold check_request.
    destruct (encode (forward_msg (request_host url) (request_path url)))
      as [|b bs] eqn:E.
    + unfold forward_msg in Hd. discriminate Hd.
    + rewrite Hd, Hl. cbv beta iota zeta.
      rewrite Ht, Hq. now destruct q.
Qed.

(** ** Responses that fit in the single read *)

(** X15. On a miss whose store succeeds, a non-empty response that the
    origin delivers in one part of at most 4096 bytes before it closes is
    sent to the client and stored whole; of a first part of more than
    4096 bytes the client gets, and the cache holds, exactly the first
    4096 bytes, which is not the full response. *)
Theorem response_in_one_read_is_whole
    (net : network) (d : filesystem) (client_in : list byte) (url : string)
    (r : option (list byte)) (reply : list byte -> list recv_event)
    (data : list byte) (rest : list recv_event) (d' : filesystem) :
  check_request (take BUFSIZE client_in) = inr url ->
  lookup_result d (request_key url) = Returned r ->
  truthy r = false ->
  net (request_host url) HTTP_PORT = Accepted reply ->
  reply (forwarded url) = Chunk data :: rest ->
  data <> [] ->
  stored d (request_key url) (take BUFSIZE data) = Some d' ->
  (length data <= BUFSIZE -> rest = [] ->
   sent_to_client (snd (session net d client_in)) =
     full_response (reply (forwarded url))
   /\ lookup_result (fst (session net d client_in)) (request_key url) =
      Returned (Some (full_response (reply (forwarded url)))))
  /\ (BUFSIZE < length data ->
      sent_to_client (snd (session net d client_in)) = take BUFSIZE data
      /\ lookup_result (fst (session net d client_in)) (request_key url) =
         Returned (Some (take BUFSIZE data))
      /\ length (sent_to_client (snd (session net d client_in))) = BUFSIZE
      /\ sent_to_client (snd (session net d client_in)) <>
         full_response (reply (forwarded url))).
Proof.
  intros Hc Hl Ht Hnet Hreply Hne Hs.
  assert (Hrecv : exists rest',
            recv_result BUFSIZE (reply (forwarded url)) =
            Returned (take BUFSIZE data, rest')).
  { rewrite Hreply. cbn [recv_result]. eauto. }
  destruct Hrecv as [rest' Hrecv].
  assert (Htake : take BUFSIZE data <> []).
  { destruct data; [congruence | discriminate]. }
  assert (Hlook : lookup_result d' (request_key url) =
                  Returned (Some (take BUFSIZE data))).
  { apply lookup_after_store with d; [assumption|].
    now apply lookup_result_returns with r. }
  rewrite (session_fetched _ _ _ _ _ _ _ _ Hc Hl Ht Hnet Hrecv), Hs.
  destruct (take BUFSIZE data) as [|b bs] eqn:E; [congruence|].
  cbn [fst snd]. cbn [sent_to_client fetch_trace app]. rewrite app_nil_r.
  rewrite Hreply. cbn [full_response]. split.
  - intros Hlen ->. cbn [full_response]. rewrite app_nil_r.
    rewrite take_ge in E by assumption. subst data. now split.
  - intros Hlen. rewrite <- E. repeat split.
    + now rewrite E.
    + rewrite length_take. lia.
    + intros Heq. apply (f_equal length) in Heq.
      rewrite length_take, length_app in Heq. lia.
Qed.

(** ** The method *)

Lemma upper_char_is (c : ascii) (x : ascii) :
  (x = "G" \/ x = "E" \/ x = "T")%char ->
  PyStr.upper_char c = x <->
  c = x \/ c = ascii_of_nat (nat_of_ascii x + 32).
Proof.
  intros [-> | [-> | ->]];
    destruct c as [[] [] [] [] [] [] [] []]; vm_compute;
    (split;
     [ intros H; first [left; reflexivity | right; reflexivity | discriminate H]
     | intros [H|H]; first [reflexivity | discriminate H] ]).
Qed.

(** X16. The method is compared without regard to case, and only so: a
    token passes the test of the method exactly when it has three
    characters, [G] or [g], [E] or [e], [T] or [t]. *)
Theorem method_is_get_in_any_case (m : string) :
  PyStr.upper m = "GET" <->
  exists a b c,
    m = String a (String b (String c EmptyString))
    /\ (a = "G" \/ a = "g")%char
    /\ (b = "E" \/ b = "e")%char
    /\ (c = "T" \/ c = "t")%char.
Proof.
  split.
  - destruct m as [|a [|b [|c [|x m]]]]; try discriminate.
    cbn [PyStr.upper]. intros [= Ha Hb Hc].
    exists a, b, c. split; [reflexivity|].
    apply (upper_char_is a "G") in Ha; [|tauto].
    apply (upper_char_is b "E") in Hb; [|tauto].
    apply (upper_char_is c "T") in Hc; [|tauto].
    auto.
  - intros (a & b & c & -> & Ha & Hb & Hc).
    destruct Ha as [-> | ->], Hb as [-> | ->], Hc as [-> | ->]; reflexivity.
Qed.

(** ** The further properties at concrete sessions *)

(** X3 with no origin to reach. *)
Lemma connect_failure_ends_session_witness :
  session Scenario.no_origin Scenario.empty_cache Scenario.index_request =
    (Scenario.empty_cache,
     [Connect "example.com" 80; CloseOrigin;
      PrintError (ExceptionRaised (OSError sock_connect)); CloseClient]).
Proof.
  apply (connect_failure_ends_session
           Scenario.no_origin Scenario.empty_cache Scenario.index_request
           Scenario.index_url None); computed.
Defined.

(** X4 with an origin that accepts the connection and stays silent. *)
Lemma read_failure_ends_session_witness :
  session (Scenario.example_com [Stall]) Scenario.empty_cache
          Scenario.index_request =
    (Scenario.empty_cache,
     fetch_trace Scenario.index_url ++ [PrintError TimedOut; CloseClient]).
Proof.
  apply (read_failure_ends_session
           (Scenario.example_com [Stall]) Scenario.empty_cache
           Scenario.index_request Scenario.index_url None (fun _ => [Stall])
           socket_timeout); computed.
Defined.

(** X6 with the page in the cache and another answer at the origin. *)
Lemma cached_entry_is_never_replaced_witness :
  lookup_result
    (fst (session (Scenario.example_com [Chunk Scenario.not_found])
                  Scenario.cached_index Scenario.index_request))
    Scenario.index_key =
  Returned (Some Scenario.page_head).
Proof.
  apply (cached_entry_is_never_replaced
           (Scenario.example_com [Chunk Scenario.not_found])
           Scenario.cached_index Scenario.index_request Scenario.index_key
           Scenario.page_head); computed.
Defined.

(** X7 with two stores under the key of the page. *)
Lemma second_store_wins_witness :
  stored Scenario.empty_cache Scenario.index_key Scenario.not_found =
    Some (Scenario.cache_with Scenario.index_key
            (File Scenario.not_found true true))
  /\ (exists f,
        entries (Scenario.cache_with Scenario.index_key
                   (File Scenario.not_found true true))
        !! Scenario.index_key = Some (Regular f)
        /\ content f = Scenario.not_found)
  /\ (lookup_result
        (Scenario.cache_with Scenario.index_key
           (File Scenario.not_found true true))
        Scenario.index_key = Returned (Some Scenario.not_found)
      \/ lookup_result
           (Scenario.cache_with Scenario.index_key
              (File Scenario.not_found true true))
           Scenario.index_key = Raised (OSError open_rb))
  /\ forall k', k' <> Scenario.index_key ->
      lookup_result
        (Scenario.cache_with Scenario.index_key
           (File Scenario.not_found true true)) k' =
      lookup_result Scenario.empty_cache k'.
Proof.
  apply (second_store_wins Scenario.empty_cache Scenario.cached_index
           (Scenario.cache_with Scenario.index_key
              (File Scenario.not_found true true))
           Scenario.index_key Scenario.page_head Scenario.not_found);
    computed.
Defined.


(** X11 with and without a header line. *)
Lemma request_line_alone_is_read_witness :
  session Scenario.root_origin Scenario.cached_root
          (encode ("GET http://example.com/ HTTP/1.1" ++ PyStr.CRLF ++
                   ("Cache-Control: no-cache" ++ PyStr.CRLF ++ PyStr.CRLF))%string) =
  session Scenario.root_origin Scenario.cached_root
          (encode ("GET http://example.com/ HTTP/1.1" ++ PyStr.CRLF ++
                   PyStr.CRLF)%string).
Proof.
  apply (request_line_alone_is_read
           Scenario.root_origin Scenario.cached_root
           "GET http://example.com/ HTTP/1.1"
           ("Cache-Control: no-cache" ++ PyStr.CRLF ++ PyStr.CRLF)%string
           PyStr.CRLF).
  - computed.
  - vm_compute. lia.
Defined.

(** X13 with two other connections between the two requests. *)
Lemma first_response_is_served_ever_after_witness :
  session Scenario.no_origin
    (fst (sessions
            [(Scenario.no_origin, Scenario.get Scenario.root_url);
             (Scenario.example_com [Chunk Scenario.not_found],
              Scenario.get "http://example.com/other")]
            Scenario.cached_index))
    Scenario.index_request =
  (fst (sessions
          [(Scenario.no_origin, Scenario.get Scenario.root_url);
           (Scenario.example_com [Chunk Scenario.not_found],
            Scenario.get "http://example.com/other")]
          Scenario.cached_index),
   [SendClient Scenario.page_head; CloseClient]).
Proof.
  apply (first_response_is_served_ever_after
           (Scenario.example_com Scenario.two_parts) Scenario.no_origin
           Scenario.empty_cache Scenario.cached_index
           Scenario.index_request Scenario.index_request Scenario.index_url
           (fetch_trace Scenario.index_url ++
            [SendClient Scenario.page_head; CloseClient])
           [(Scenario.no_origin, Scenario.get Scenario.root_url);
            (Scenario.example_com [Chunk Scenario.not_found],
             Scenario.get "http://example.com/other")]);
    computed.
Defined.

(** X14 with the request for the page. *)
Lemma forwarded_request_is_well_formed_witness :
  tokens (forwarded Scenario.index_url) = ["GET"; "/index.html"; "HTTP/1.0"]
  /\ check_request (forwarded Scenario.index_url) = inl RelativeURL.
Proof.
  apply (forwarded_request_is_well_formed
           Scenario.index_request Scenario.index_url).
  computed.
Defined.

(** X15 with the page in one part. *)
Lemma response_in_one_read_is_whole_witness :
  sent_to_client
    (snd (session (Scenario.example_com [Chunk Scenario.page_head])
                  Scenario.empty_cache Scenario.index_request)) =
  full_response [Chunk Scenario.page_head].
Proof.
  refine (proj1 (proj1 (response_in_one_read_is_whole
                          (Scenario.example_com [Chunk Scenario.page_head])
                          Scenario.empty_cache Scenario.index_request
                          Scenario.index_url None
                          (fun _ => [Chunk Scenario.page_head])
                          Scenario.page_head [] Scenario.cached_index
                          _ _ _ _ _ _ _) _ _));
    first [computed | vm_compute; lia].
Defined.
